(** * otii_tcp_client: the Arc device handle

    A shallow embedding of [otii_tcp_client/arc.py] and
    [otii_tcp_client/toggle.py].

    Every method of the Python class [Arc] builds a request dictionary,
    hands it to the borrowed connection's [send_and_receive], inspects the
    ["type"] entry of the response and either raises [Otii_Exception] or
    returns an entry of the response's ["data"] payload.

    - Python values are the inductive type [PyVal]; dictionaries are
      stdpp finite maps with string keys, floats are IEEE binary64
      numbers (Rocq's primitive floats), the members of the two
      enumerations are values of their own.
    - The connection is a collaborator implemented elsewhere.  A method is
      therefore an interaction tree of finite depth: it either halts
      (returning or raising) or performs one [send_and_receive] exchange
      and continues with whatever response the connection hands back.
    - The handle ([self]) is threaded through every method, so that the
      frame property "no method writes a field" is a statement about the
      final state of each run.
    - A [send_and_receive] call that the connection itself ends with an
      exception ends the method there, no method having a handler; the
      runs considered here are those in which the connection returns.
    - The class [otii_exception.Otii_Exception] is defined in a module that
      is not among these two files.  What its constructor does with a
      response is therefore a parameter of the methods: everything below
      holds for any constructor, one that fails on some responses
      included. *)

From Stdlib Require Import ZArith Floats.
From stdpp Require Import gmap strings list.

Set Warnings "-register-all,-inexact-float".
Local Open Scope Z_scope.

(** ** The two enumerations *)

(** [toggle.py]: [class Toggle(Enum)] with [ON = True], [OFF = False]. *)
Inductive Toggle : Set := ON | OFF.

Definition Toggle_value (t : Toggle) : bool :=
  match t with
  | ON => true
  | OFF => false
  end.

(** [arc.py]: [class Channel(Enum)], thirteen members. *)
Inductive Channel : Set :=
| MAIN_CURRENT
| MAIN_VOLTAGE
| MAIN_ENERGY
| ADC_CURRENT
| ADC_VOLTAGE
| ADC_ENERGY
| SENSE_MINUS_VOLTAGE
| SENSE_PLUS_VOLTAGE
| VBUS
| TEMPERATURE
| UART_LOGS
| GPI_1
| GPI_2.

Definition Channel_value (c : Channel) : string :=
  match c with
  | MAIN_CURRENT => "mc"
  | MAIN_VOLTAGE => "mv"
  | MAIN_ENERGY => "me"
  | ADC_CURRENT => "ac"
  | ADC_VOLTAGE => "av"
  | ADC_ENERGY => "ae"
  | SENSE_MINUS_VOLTAGE => "sn"
  | SENSE_PLUS_VOLTAGE => "sp"
  | VBUS => "vb"
  | TEMPERATURE => "tp"
  | UART_LOGS => "rx"
  | GPI_1 => "i1"
  | GPI_2 => "i2"
  end.

(** The members in declaration order, as iterating over the class yields
    them. *)
Definition Channel_members : list Channel :=
  [MAIN_CURRENT; MAIN_VOLTAGE; MAIN_ENERGY; ADC_CURRENT; ADC_VOLTAGE;
   ADC_ENERGY; SENSE_MINUS_VOLTAGE; SENSE_PLUS_VOLTAGE; VBUS; TEMPERATURE;
   UART_LOGS; GPI_1; GPI_2].

(** ** Python values *)

(** The values that flow through the handle: JSON-like data (requests and
    responses), and members of the two enumerations passed as arguments. *)
Inductive PyVal : Type :=
| PyNone
| PyBool (b : bool)
| PyInt (z : Z)
| PyFloat (f : float)
| PyStr (s : string)
| PyList (l : list PyVal)
| PyDict (d : gmap string PyVal)
| PyToggle (t : Toggle)
| PyChannel (c : Channel).

(** Exceptions.  [Otii_Exception response] is the exception object that the
    class [otii_exception.Otii_Exception] builds when it is called with
    [response] and returns; the class is defined outside these files, and
    what of the response the object keeps is its business.  The other
    exceptions are raised by the Python runtime on the operations the
    methods perform (subscripting, attribute access, arithmetic). *)
Inductive PyExc : Type :=
| Otii_Exception (response : PyVal)
| KeyError (key : string)
| TypeError
| AttributeError
| OverflowError
| ZeroDivisionError.

Inductive Outcome (A : Type) : Type :=
| Returned (a : A)
| Raised (e : PyExc).
Arguments Returned {A} a.
Arguments Raised {A} e.

Definition outcome_bind {A B} (o : Outcome A) (k : A -> Outcome B) : Outcome B :=
  match o with
  | Returned a => k a
  | Raised e => Raised e
  end.

(** *** Runtime operations used by the methods *)

(** [v[key]] for a string key.  Only dictionaries accept a string
    subscript; a missing key is a [KeyError]. *)
Definition py_getitem (v : PyVal) (key : string) : Outcome PyVal :=
  match v with
  | PyDict d =>
      match d !! key with
      | Some x => Returned x
      | None => Raised (KeyError key)
      end
  | _ => Raised TypeError
  end.

(** [v.get(key, dflt)]: only dictionaries have a [get] method. *)
Definition py_dict_get (v : PyVal) (key : string) (dflt : PyVal) : Outcome PyVal :=
  match v with
  | PyDict d => Returned (default dflt (d !! key))
  | _ => Raised AttributeError
  end.

(** [v.value]: enumeration members carry a [value] attribute; the JSON-like
    values (numbers, strings, lists, dictionaries, [None]) do not. *)
Definition py_value_attr (v : PyVal) : Outcome PyVal :=
  match v with
  | PyToggle t => Returned (PyBool (Toggle_value t))
  | PyChannel c => Returned (PyStr (Channel_value c))
  | _ => Raised AttributeError
  end.

(** [v == s] for a string literal [s]. *)
Definition py_eq_str (v : PyVal) (s : string) : bool :=
  match v with
  | PyStr s' => bool_decide (s' = s)
  | _ => false
  end.

(** *** Arithmetic of [60 + (timeout / 1000)] *)

(** A binary64 result; Python raises [OverflowError] where the rounded
    result of an integer conversion or division would be infinite. *)
Definition finite_or_overflow (x : spec_float) : Outcome float :=
  match x with
  | S754_infinity _ => Raised OverflowError
  | _ => Returned (SF2Prim x)
  end.

(** [float(z)]: the integer rounded to the nearest binary64, ties to even. *)
Definition int_to_float (z : Z) : Outcome float :=
  finite_or_overflow (binary_normalize prec emax z 0 false).

(** [a / b] on integers: the correctly rounded quotient. *)
Definition int_true_divide (a b : Z) : Outcome float :=
  match a, b with
  | _, Z0 => Raised ZeroDivisionError
  | Z0, _ => Returned (if b <? 0 then neg_zero else zero)
  | _, _ =>
      let '(q, e, l) := SFdiv_core_binary prec emax (Z.abs a) 0 (Z.abs b) 0 in
      finite_or_overflow
        (binary_round_aux prec emax (xorb (a <? 0) (b <? 0)) q e l)
  end.

(** [x / y] on floats. *)
Definition float_true_divide (x y : float) : Outcome float :=
  if PrimFloat.eqb y zero then Raised ZeroDivisionError
  else Returned (PrimFloat.div x y).

(** [v / n] for an integer literal [n]. *)
Definition py_truediv_int (v : PyVal) (n : Z) : Outcome PyVal :=
  match v with
  | PyBool b => outcome_bind (int_true_divide (Z.b2z b) n) (fun q => Returned (PyFloat q))
  | PyInt z => outcome_bind (int_true_divide z n) (fun q => Returned (PyFloat q))
  | PyFloat x =>
      outcome_bind (int_to_float n) (fun y =>
      outcome_bind (float_true_divide x y) (fun q => Returned (PyFloat q)))
  | _ => Raised TypeError
  end.

(** [n + v] for an integer literal [n]. *)
Definition py_int_add (n : Z) (v : PyVal) : Outcome PyVal :=
  match v with
  | PyBool b => Returned (PyInt (n + Z.b2z b))
  | PyInt z => Returned (PyInt (n + z))
  | PyFloat y =>
      outcome_bind (int_to_float n) (fun x => Returned (PyFloat (PrimFloat.add x y)))
  | _ => Raised TypeError
  end.

(** ** The handle and its methods' effects *)

(** The borrowed connection: an object owned elsewhere, known to the handle
    by reference only. *)
Inductive OtiiConnection : Set := ConnectionRef (address : positive).

(** The instance attributes set by [Arc.__init__]. *)
Record Arc : Type := {
  type : PyVal;
  id : PyVal;
  name : PyVal;
  connection : OtiiConnection;
}.

(** What a method does: it halts, returning a value or raising, with the
    handle in its final state; or it calls [send_and_receive] on a
    connection, with a request and possibly a timeout ([None]: the
    argument is omitted and the connection's default applies), and goes on
    with the response. *)
Inductive Prog (A : Type) : Type :=
| Halt (o : Outcome A) (self : Arc)
| SendAndReceive (conn : OtiiConnection) (request : PyVal)
    (timeout : option PyVal) (k : PyVal -> Prog A).
Arguments Halt {A} o self.
Arguments SendAndReceive {A} conn request timeout k.

Definition Method (A : Type) : Type := Arc -> Prog A.

Fixpoint prog_bind {A B} (p : Prog A) (k : A -> Method B) : Prog B :=
  match p with
  | Halt (Returned a) self => k a self
  | Halt (Raised e) self => Halt (Raised e) self
  | SendAndReceive conn request timeout k' =>
      SendAndReceive conn request timeout (fun response => prog_bind (k' response) k)
  end.

Definition ret {A} (a : A) : Method A := fun self => Halt (Returned a) self.
Definition raise {A} (e : PyExc) : Method A := fun self => Halt (Raised e) self.
Definition bind {A B} (m : Method A) (k : A -> Method B) : Method B :=
  fun self => prog_bind (m self) k.

(** An operation of the runtime that does not touch the handle. *)
Definition lift {A} (o : Outcome A) : Method A := fun self => Halt o self.

(** [self.f] for an instance attribute [f]. *)
Definition getattr {A} (f : Arc -> A) : Method A := fun self => Halt (Returned (f self)) self.

(** [self.connection.send_and_receive(request, timeout)]. *)
Definition send_and_receive (request : PyVal) (timeout : option PyVal) : Method PyVal :=
  fun self =>
    SendAndReceive (connection self) request timeout
      (fun response => Halt (Returned response) self).

(** [try: m  except Exception as e: ...]: what a caller that goes on after
    a failed call observes. *)
Fixpoint prog_attempt {A} (p : Prog A) : Prog (Outcome A) :=
  match p with
  | Halt o self => Halt (Returned o) self
  | SendAndReceive conn request timeout k =>
      SendAndReceive conn request timeout (fun response => prog_attempt (k response))
  end.

Definition attempt {A} (m : Method A) : Method (Outcome A) :=
  fun self => prog_attempt (m self).

Declare Scope method_scope.
Delimit Scope method_scope with method.
Bind Scope method_scope with Method.
Notation "'let*' x ':=' m 'in' k" := (bind m (fun x => k))
  (at level 10, x name, m at level 100, k at level 200, only parsing) : method_scope.
Local Open Scope method_scope.

(** [Arc.__init__(self, device_dict, connection)]. *)
Definition __init__ (device_dict : PyVal) (connection : OtiiConnection) : Outcome Arc :=
  outcome_bind (py_getitem device_dict "type") (fun type =>
  outcome_bind (py_getitem device_dict "device_id") (fun id =>
  outcome_bind (py_getitem device_dict "name") (fun name =>
  Returned {| type := type; id := id; name := name; connection := connection |}))).

(** The request envelope [{"type": "request", "cmd": cmd, "data": data}]. *)
Notation "'REQUEST' cmd data" :=
  (PyDict {[ "type" := PyStr "request"; "cmd" := PyStr cmd; "data" := data ]})
  (at level 10, cmd at level 9, data at level 9, only parsing).

Section ExceptionClass.

(** Missing from the source files: the class [otii_exception.Otii_Exception].
    It is taken as a parameter.  Calling the class with a response runs its
    constructor, which returns ([None] here) or ends in an exception of its
    own ([Some e]), as a constructor that reads an entry the response does
    not have would. *)
Variable constructor_raises : PyVal -> option PyExc.

(** What [raise otii_exception.Otii_Exception(response)] ends in: the
    exception of the constructor where it has one, the exception object
    built from the response otherwise. *)
Definition raised_exception (response : PyVal) : PyExc :=
  match constructor_raises response with
  | Some e => e
  | None => Otii_Exception response
  end.

Definition raise_Otii_Exception {A} (response : PyVal) : Method A :=
  raise (raised_exception response).

(** ** The methods of [Arc], in source order *)

Definition calibrate : Method PyVal :=
  let* self_id := getattr id in
  let data := PyDict {[ "device_id" := self_id ]} in
  let request := REQUEST "arc_calibrate" data in
  let* response := send_and_receive request (Some (PyInt 10)) in
  let* response_type := lift (py_getitem response "type") in
  if py_eq_str response_type "error" then raise_Otii_Exception response
  else ret PyNone.

Definition toggle_5v (toggle : PyVal) : Method PyVal :=
  let* self_id := getattr id in
  let* toggle_value := lift (py_value_attr toggle) in
  let data := PyDict {[ "device_id" := self_id; "enable" := toggle_value ]} in
  let request := REQUEST "arc_enable_5v" data in
  let* response := send_and_receive request None in
  let* response_type := lift (py_getitem response "type") in
  if py_eq_str response_type "error" then raise_Otii_Exception response
  else ret PyNone.

Definition enable_5v : Method PyVal :=
  let* _ := toggle_5v (PyToggle ON) in
  ret PyNone.

Definition disable_5v : Method PyVal :=
  let* _ := toggle_5v (PyToggle OFF) in
  ret PyNone.

Definition toggle_battery_profiling (toggle : PyVal) : Method PyVal :=
  let* self_id := getattr id in
  let* toggle_value := lift (py_value_attr toggle) in
  let data := PyDict {[ "device_id" := self_id; "enable" := toggle_value ]} in
  let request := REQUEST "arc_enable_battery_profiling" data in
  let* response := send_and_receive request None in
  let* response_type := lift (py_getitem response "type") in
  if py_eq_str response_type "error" then raise_Otii_Exception response
  else ret PyNone.

Definition enable_battery_profiling : Method PyVal :=
  let* _ := toggle_battery_profiling (PyToggle ON) in
  ret PyNone.

Definition disable_battery_profiling : Method PyVal :=
  let* _ := toggle_battery_profiling (PyToggle OFF) in
  ret PyNone.

Definition toggle_channel (channel toggle : PyVal) : Method PyVal :=
  let* self_id := getattr id in
  let* channel_value := lift (py_value_attr channel) in
  let* toggle_value := lift (py_value_attr toggle) in
  let data :=
    PyDict {[ "device_id" := self_id; "channel" := channel_value;
              "enable" := toggle_value ]} in
  let request := REQUEST "arc_enable_channel" data in
  let* response := send_and_receive request None in
  let* response_type := lift (py_getitem response "type") in
  if py_eq_str response_type "error" then raise_Otii_Exception response
  else ret PyNone.

Definition enable_channel (channel : PyVal) : Method PyVal :=
  let* _ := toggle_channel channel (PyToggle ON) in
  ret PyNone.

Definition disable_channel (channel : PyVal) : Method PyVal :=
  let* _ := toggle_channel channel (PyToggle OFF) in
  ret PyNone.

Definition toggle_exp_port (toggle : PyVal) : Method PyVal :=
  let* self_id := getattr id in
  let* toggle_value := lift (py_value_attr toggle) in
  let data := PyDict {[ "device_id" := self_id; "enable" := toggle_value ]} in
  let request := REQUEST "arc_enable_exp_port" data in
  let* response := send_and_receive request None in
  let* response_type := lift (py_getitem response "type") in
  if py_eq_str response_type "error" then raise_Otii_Exception response
  else ret PyNone.

Definition enable_exp_port : Method PyVal :=
  let* _ := toggle_exp_port (PyToggle ON) in
  ret PyNone.

Definition disable_exp_port : Method PyVal :=
  let* _ := toggle_exp_port (PyToggle OFF) in
  ret PyNone.

Definition toggle_uart (toggle : PyVal) : Method PyVal :=
  let* self_id := getattr id in
  let* toggle_value := lift (py_value_attr toggle) in
  let data := PyDict {[ "device_id" := self_id; "enable" := toggle_value ]} in
  let request := REQUEST "arc_enable_uart" data in
  let* response := send_and_receive request None in
  let* response_type := lift (py_getitem response "type") in
  if py_eq_str response_type "error" then raise_Otii_Exception response
  else ret PyNone.

Definition enable_uart : Method PyVal :=
  let* _ := toggle_uart (PyToggle ON) in
  ret PyNone.

Definition disable_uart : Method PyVal :=
  let* _ := toggle_uart (PyToggle OFF) in
  ret PyNone.

Definition get_4wire : Method PyVal :=
  let* self_id := getattr id in
  let data := PyDict {[ "device_id" := self_id ]} in
  let request := REQUEST "arc_get_4wire" data in
  let* response := send_and_receive request None in
  let* response_type := lift (py_getitem response "type") in
  if py_eq_str response_type "error" then raise_Otii_Exception response
  else
    let* response_data := lift (py_getitem response "data") in
    lift (py_getitem response_data "value").

Definition get_adc_resistor : Method PyVal :=
  let* self_id := getattr id in
  let data := PyDict {[ "device_id" := self_id ]} in
  let request := REQUEST "arc_get_adc_resistor" data in
  let* response := send_and_receive request None in
  let* response_type := lift (py_getitem response "type") in
  if py_eq_str response_type "error" then raise_Otii_Exception response
  else
    let* response_data := lift (py_getitem response "data") in
    lift (py_getitem response_data "value").

Definition get_channel_samplerate (channel : PyVal) : Method PyVal :=
  let* self_id := getattr id in
  let* channel_value := lift (py_value_attr channel) in
  let data := PyDict {[ "device_id" := self_id; "channel" := channel_value ]} in
  let request := REQUEST "arc_get_channel_samplerate" data in
  let* response := send_and_receive request None in
  let* response_type := lift (py_getitem response "type") in
  if py_eq_str response_type "error" then raise_Otii_Exception response
  else
    let* response_data := lift (py_getitem response "data") in
    lift (py_getitem response_data "value").

Definition get_exp_voltage : Method PyVal :=
  let* self_id := getattr id in
  let data := PyDict {[ "device_id" := self_id ]} in
  let request := REQUEST "arc_get_exp_voltage" data in
  let* response := send_and_receive request None in
  let* response_type := lift (py_getitem response "type") in
  if py_eq_str response_type "error" then raise_Otii_Exception response
  else
    let* response_data := lift (py_getitem response "data") in
    lift (py_getitem response_data "value").

Definition get_gpi (pin : PyVal) : Method PyVal :=
  let* self_id := getattr id in
  let data := PyDict {[ "device_id" := self_id; "pin" := pin ]} in
  let request := REQUEST "arc_get_gpi" data in
  let* response := send_and_receive request None in
  let* response_type := lift (py_getitem response "type") in
  if py_eq_str response_type "error" then raise_Otii_Exception response
  else
    let* response_data := lift (py_getitem response "data") in
    lift (py_getitem response_data "value").

Definition get_main : Method PyVal :=
  let* self_id := getattr id in
  let data := PyDict {[ "device_id" := self_id ]} in
  let request := REQUEST "arc_get_main" data in
  let* response := send_and_receive request None in
  let* response_type := lift (py_getitem response "type") in
  if py_eq_str response_type "error" then raise_Otii_Exception response
  else
    let* response_data := lift (py_getitem response "data") in
    lift (py_getitem response_data "value").

Definition get_main_voltage : Method PyVal :=
  let* self_id := getattr id in
  let data := PyDict {[ "device_id" := self_id ]} in
  let request := REQUEST "arc_get_main_voltage" data in
  let* response := send_and_receive request None in
  let* response_type := lift (py_getitem response "type") in
  if py_eq_str response_type "error" then raise_Otii_Exception response
  else
    let* response_data := lift (py_getitem response "data") in
    lift (py_getitem response_data "value").

Definition get_max_current : Method PyVal :=
  let* self_id := getattr id in
  let data := PyDict {[ "device_id" := self_id ]} in
  let request := REQUEST "arc_get_max_current" data in
  let* response := send_and_receive request None in
  let* response_type := lift (py_getitem response "type") in
  if py_eq_str response_type "error" then raise_Otii_Exception response
  else
    let* response_data := lift (py_getitem response "data") in
    lift (py_getitem response_data "value").

Definition get_range : Method PyVal :=
  let* self_id := getattr id in
  let data := PyDict {[ "device_id" := self_id ]} in
  let request := REQUEST "arc_get_range" data in
  let* response := send_and_receive request None in
  let* response_type := lift (py_getitem response "type") in
  if py_eq_str response_type "error" then raise_Otii_Exception response
  else
    let* response_data := lift (py_getitem response "data") in
    lift (py_getitem response_data "range").

Definition get_rx : Method PyVal :=
  let* self_id := getattr id in
  let data := PyDict {[ "device_id" := self_id ]} in
  let request := REQUEST "arc_get_rx" data in
  let* response := send_and_receive request None in
  let* response_type := lift (py_getitem response "type") in
  if py_eq_str response_type "error" then raise_Otii_Exception response
  else
    let* response_data := lift (py_getitem response "data") in
    lift (py_getitem response_data "value").

Definition get_src_cur_limit_enabled : Method PyVal :=
  let* self_id := getattr id in
  let data := PyDict {[ "device_id" := self_id ]} in
  let request := REQUEST "arc_get_src_cur_limit_enabled" data in
  let* response := send_and_receive request None in
  let* response_type := lift (py_getitem response "type") in
  if py_eq_str response_type "error" then raise_Otii_Exception response
  else
    let* response_data := lift (py_getitem response "data") in
    lift (py_getitem response_data "enabled").

Definition get_supplies : Method PyVal :=
  let* self_id := getattr id in
  let data := PyDict {[ "device_id" := self_id ]} in
  let request := REQUEST "arc_get_supplies" data in
  let* response := send_and_receive request None in
  let* response_type := lift (py_getitem response "type") in
  if py_eq_str response_type "error" then raise_Otii_Exception response
  else
    let* response_data := lift (py_getitem response "data") in
    lift (py_getitem response_data "supplies").

Definition get_supply : Method PyVal :=
  let* self_id := getattr id in
  let data := PyDict {[ "device_id" := self_id ]} in
  let request := REQUEST "arc_get_supply" data in
  let* response := send_and_receive request None in
  let* response_type := lift (py_getitem response "type") in
  if py_eq_str response_type "error" then raise_Otii_Exception response
  else
    let* response_data := lift (py_getitem response "data") in
    lift (py_getitem response_data "supply_id").

Definition get_supply_parallel : Method PyVal :=
  let* self_id := getattr id in
  let data := PyDict {[ "device_id" := self_id ]} in
  let request := REQUEST "arc_get_supply_parallel" data in
  let* response := send_and_receive request None in
  let* response_type := lift (py_getitem response "type") in
  if py_eq_str response_type "error" then raise_Otii_Exception response
  else
    let* response_data := lift (py_getitem response "data") in
    lift (py_getitem response_data "value").

Definition get_supply_series : Method PyVal :=
  let* self_id := getattr id in
  let data := PyDict {[ "device_id" := self_id ]} in
  let request := REQUEST "arc_get_supply_series" data in
  let* response := send_and_receive request None in
  let* response_type := lift (py_getitem response "type") in
  if py_eq_str response_type "error" then raise_Otii_Exception response
  else
    let* response_data := lift (py_getitem response "data") in
    lift (py_getitem response_data "value").

Definition get_supply_soc_tracking : Method PyVal :=
  let* self_id := getattr id in
  let data := PyDict {[ "device_id" := self_id ]} in
  let request := REQUEST "arc_get_supply_soc_tracking" data in
  let* response := send_and_receive request None in
  let* response_type := lift (py_getitem response "type") in
  if py_eq_str response_type "error" then raise_Otii_Exception response
  else
    let* response_data := lift (py_getitem response "data") in
    lift (py_getitem response_data "enabled").

Definition get_supply_used_capacity : Method PyVal :=
  let* self_id := getattr id in
  let data := PyDict {[ "device_id" := self_id ]} in
  let request := REQUEST "arc_get_supply_used_capacity" data in
  let* response := send_and_receive request None in
  let* response_type := lift (py_getitem response "type") in
  if py_eq_str response_type "error" then raise_Otii_Exception response
  else
    let* response_data := lift (py_getitem response "data") in
    lift (py_getitem response_data "value").

Definition get_uart_baudrate : Method PyVal :=
  let* self_id := getattr id in
  let data := PyDict {[ "device_id" := self_id ]} in
  let request := REQUEST "arc_get_uart_baudrate" data in
  let* response := send_and_receive request None in
  let* response_type := lift (py_getitem response "type") in
  if py_eq_str response_type "error" then raise_Otii_Exception response
  else
    let* response_data := lift (py_getitem response "data") in
    lift (py_getitem response_data "value").

Definition get_value (channel : PyVal) : Method PyVal :=
  let* self_id := getattr id in
  let* channel_value := lift (py_value_attr channel) in
  let data := PyDict {[ "device_id" := self_id; "channel" := channel_value ]} in
  let request := REQUEST "arc_get_value" data in
  let* response := send_and_receive request None in
  let* response_type := lift (py_getitem response "type") in
  if py_eq_str response_type "error" then raise_Otii_Exception response
  else
    let* response_data := lift (py_getitem response "data") in
    lift (py_getitem response_data "value").

Definition get_version : Method PyVal :=
  let* self_id := getattr id in
  let data := PyDict {[ "device_id" := self_id ]} in
  let request := REQUEST "arc_get_version" data in
  let* response := send_and_receive request None in
  let* response_type := lift (py_getitem response "type") in
  if py_eq_str response_type "error" then raise_Otii_Exception response
  else lift (py_getitem response "data").

Definition is_connected : Method PyVal :=
  let* self_id := getattr id in
  let data := PyDict {[ "device_id" := self_id ]} in
  let request := REQUEST "arc_is_connected" data in
  let* response := send_and_receive request None in
  let* response_type := lift (py_getitem response "type") in
  if py_eq_str response_type "error" then raise_Otii_Exception response
  else
    let* response_data := lift (py_getitem response "data") in
    lift (py_getitem response_data "connected").

Definition toggle_4wire (toggle : PyVal) : Method PyVal :=
  let* self_id := getattr id in
  let* toggle_value := lift (py_value_attr toggle) in
  let data := PyDict {[ "device_id" := self_id; "enable" := toggle_value ]} in
  let request := REQUEST "arc_set_4wire" data in
  let* response := send_and_receive request None in
  let* response_type := lift (py_getitem response "type") in
  if py_eq_str response_type "error" then raise_Otii_Exception response
  else ret PyNone.

Definition enable_4wire : Method PyVal :=
  let* _ := toggle_4wire (PyToggle ON) in
  ret PyNone.

Definition disable_4wire : Method PyVal :=
  let* _ := toggle_4wire (PyToggle OFF) in
  ret PyNone.

Definition set_adc_resistor (value : PyVal) : Method PyVal :=
  let* self_id := getattr id in
  let data := PyDict {[ "device_id" := self_id; "value" := value ]} in
  let request := REQUEST "arc_set_adc_resistor" data in
  let* response := send_and_receive request None in
  let* response_type := lift (py_getitem response "type") in
  if py_eq_str response_type "error" then raise_Otii_Exception response
  else ret PyNone.

Definition set_battery_profile (value : PyVal) : Method PyVal :=
  let* self_id := getattr id in
  let data := PyDict {[ "device_id" := self_id; "value" := value ]} in
  let request := REQUEST "arc_set_battery_profile" data in
  let* response := send_and_receive request None in
  let* response_type := lift (py_getitem response "type") in
  if py_eq_str response_type "error" then raise_Otii_Exception response
  else ret PyNone.

Definition set_channel_samplerate (channel value : PyVal) : Method PyVal :=
  let* self_id := getattr id in
  let* value_value := lift (py_value_attr value) in
  let data :=
    PyDict {[ "device_id" := self_id; "channel" := channel; "value" := value_value ]} in
  let request := REQUEST "arc_set_channel_samplerate" data in
  let* response := send_and_receive request None in
  let* response_type := lift (py_getitem response "type") in
  if py_eq_str response_type "error" then raise_Otii_Exception response
  else ret PyNone.

Definition set_exp_voltage (value : PyVal) : Method PyVal :=
  let* self_id := getattr id in
  let data := PyDict {[ "device_id" := self_id; "value" := value ]} in
  let request := REQUEST "arc_set_exp_voltage" data in
  let* response := send_and_receive request None in
  let* response_type := lift (py_getitem response "type") in
  if py_eq_str response_type "error" then raise_Otii_Exception response
  else ret PyNone.

Definition toggle_gpo (pin toggle : PyVal) : Method PyVal :=
  let* self_id := getattr id in
  let* toggle_value := lift (py_value_attr toggle) in
  let data :=
    PyDict {[ "device_id" := self_id; "pin" := pin; "value" := toggle_value ]} in
  let request := REQUEST "arc_set_gpo" data in
  let* response := send_and_receive request None in
  let* response_type := lift (py_getitem response "type") in
  if py_eq_str response_type "error" then raise_Otii_Exception response
  else ret PyNone.

Definition enable_gpo (pin : PyVal) : Method PyVal :=
  let* _ := toggle_gpo pin (PyToggle ON) in
  ret PyNone.

Definition disable_gpo (pin : PyVal) : Method PyVal :=
  let* _ := toggle_gpo pin (PyToggle OFF) in
  ret PyNone.

Definition toggle_main (toggle : PyVal) : Method PyVal :=
  let* self_id := getattr id in
  let* toggle_value := lift (py_value_attr toggle) in
  let data := PyDict {[ "device_id" := self_id; "enable" := toggle_value ]} in
  let request := REQUEST "arc_set_main" data in
  let* response := send_and_receive request None in
  let* response_type := lift (py_getitem response "type") in
  if py_eq_str response_type "error" then raise_Otii_Exception response
  else ret PyNone.

Definition enable_main : Method PyVal :=
  let* _ := toggle_main (PyToggle ON) in
  ret PyNone.

Definition disable_main : Method PyVal :=
  let* _ := toggle_main (PyToggle OFF) in
  ret PyNone.

Definition set_main_current (value : PyVal) : Method PyVal :=
  let* self_id := getattr id in
  let data := PyDict {[ "device_id" := self_id; "value" := value ]} in
  let request := REQUEST "arc_set_main_current" data in
  let* response := send_and_receive request None in
  let* response_type := lift (py_getitem response "type") in
  if py_eq_str response_type "error" then raise_Otii_Exception response
  else ret PyNone.

Definition set_main_voltage (value : PyVal) : Method PyVal :=
  let* self_id := getattr id in
  let data := PyDict {[ "device_id" := self_id; "value" := value ]} in
  let request := REQUEST "arc_set_main_voltage" data in
  let* response := send_and_receive request None in
  let* response_type := lift (py_getitem response "type") in
  if py_eq_str response_type "error" then raise_Otii_Exception response
  else ret PyNone.

Definition set_max_current (value : PyVal) : Method PyVal :=
  let* self_id := getattr id in
  let data := PyDict {[ "device_id" := self_id; "value" := value ]} in
  let request := REQUEST "arc_set_max_current" data in
  let* response := send_and_receive request None in
  let* response_type := lift (py_getitem response "type") in
  if py_eq_str response_type "error" then raise_Otii_Exception response
  else ret PyNone.

Definition set_power_regulation (mode : PyVal) : Method PyVal :=
  let* self_id := getattr id in
  let data := PyDict {[ "device_id" := self_id; "mode" := mode ]} in
  let request := REQUEST "arc_set_power_regulation" data in
  let* response := send_and_receive request None in
  let* response_type := lift (py_getitem response "type") in
  if py_eq_str response_type "error" then raise_Otii_Exception response
  else ret PyNone.

Definition set_range (range : PyVal) : Method PyVal :=
  let* self_id := getattr id in
  let data := PyDict {[ "device_id" := self_id; "range" := range ]} in
  let request := REQUEST "arc_set_range" data in
  let* response := send_and_receive request None in
  let* response_type := lift (py_getitem response "type") in
  if py_eq_str response_type "error" then raise_Otii_Exception response
  else ret PyNone.

Definition toggle_src_cur_limit (toggle : PyVal) : Method PyVal :=
  let* self_id := getattr id in
  let* toggle_value := lift (py_value_attr toggle) in
  let data := PyDict {[ "device_id" := self_id; "enable" := toggle_value ]} in
  let request := REQUEST "arc_set_src_cur_limit_enabled" data in
  let* response := send_and_receive request None in
  let* response_type := lift (py_getitem response "type") in
  if py_eq_str response_type "error" then raise_Otii_Exception response
  else ret PyNone.

Definition enable_toggle_src_cur_limit : Method PyVal :=
  let* _ := toggle_src_cur_limit (PyToggle ON) in
  ret PyNone.

Definition disable_toggle_src_cur_limit : Method PyVal :=
  let* _ := toggle_src_cur_limit (PyToggle OFF) in
  ret PyNone.

Definition set_supply (supply_id : PyVal) (series parallel : option PyVal) :
  Method PyVal :=
  let series := default (PyInt 1) series in
  let parallel := default (PyInt 1) parallel in
  let* self_id := getattr id in
  let data :=
    PyDict {[ "device_id" := self_id; "supply_id" := supply_id;
              "series" := series; "parallel" := parallel ]} in
  let request := REQUEST "arc_set_supply" data in
  let* response := send_and_receive request None in
  let* response_type := lift (py_getitem response "type") in
  if py_eq_str response_type "error" then raise_Otii_Exception response
  else ret PyNone.

Definition toggle_supply_soc_tracking (toggle : PyVal) : Method PyVal :=
  let* self_id := getattr id in
  let* toggle_value := lift (py_value_attr toggle) in
  let data := PyDict {[ "device_id" := self_id; "enable" := toggle_value ]} in
  let request := REQUEST "arc_set_supply_soc_tracking" data in
  let* response := send_and_receive request None in
  let* response_type := lift (py_getitem response "type") in
  if py_eq_str response_type "error" then raise_Otii_Exception response
  else ret PyNone.

Definition enable_supply_soc_tracking : Method PyVal :=
  let* _ := toggle_supply_soc_tracking (PyToggle ON) in
  ret PyNone.

Definition disable_supply_soc_tracking : Method PyVal :=
  let* _ := toggle_supply_soc_tracking (PyToggle OFF) in
  ret PyNone.

Definition set_supply_used_capacity (value : PyVal) : Method PyVal :=
  let* self_id := getattr id in
  let data := PyDict {[ "device_id" := self_id; "value" := value ]} in
  let request := REQUEST "arc_set_supply_used_capacity" data in
  let* response := send_and_receive request None in
  let* response_type := lift (py_getitem response "type") in
  if py_eq_str response_type "error" then raise_Otii_Exception response
  else ret PyNone.

Definition toggle_tx (toggle : PyVal) : Method PyVal :=
  let* self_id := getattr id in
  let* toggle_value := lift (py_value_attr toggle) in
  let data := PyDict {[ "device_id" := self_id; "value" := toggle_value ]} in
  let request := REQUEST "arc_set_tx" data in
  let* response := send_and_receive request None in
  let* response_type := lift (py_getitem response "type") in
  if py_eq_str response_type "error" then raise_Otii_Exception response
  else ret PyNone.

Definition enable_tx : Method PyVal :=
  let* _ := toggle_tx (PyToggle ON) in
  ret PyNone.

Definition disable_tx : Method PyVal :=
  let* _ := toggle_tx (PyToggle OFF) in
  ret PyNone.

Definition set_uart_baudrate (value : PyVal) : Method PyVal :=
  let* self_id := getattr id in
  let data := PyDict {[ "device_id" := self_id; "value" := value ]} in
  let request := REQUEST "arc_set_uart_baudrate" data in
  let* response := send_and_receive request None in
  let* response_type := lift (py_getitem response "type") in
  if py_eq_str response_type "error" then raise_Otii_Exception response
  else ret PyNone.

Definition wait_for_battery_data (timeout : PyVal) : Method PyVal :=
  let* self_id := getattr id in
  let data := PyDict {[ "device_id" := self_id; "timeout" := timeout ]} in
  let request := REQUEST "arc_wait_for_battery_data" data in
  let* quotient := lift (py_truediv_int timeout 1000) in
  let* seconds := lift (py_int_add 60 quotient) in
  let* response := send_and_receive request (Some seconds) in
  let* response_type := lift (py_getitem response "type") in
  if py_eq_str response_type "error" then raise_Otii_Exception response
  else
    let* response_data := lift (py_getitem response "data") in
    lift (py_getitem response_data "value").

Definition write_tx (value : PyVal) : Method PyVal :=
  let* self_id := getattr id in
  let data := PyDict {[ "device_id" := self_id; "value" := value ]} in
  let request := REQUEST "arc_write_tx" data in
  let* response := send_and_receive request None in
  let* response_type := lift (py_getitem response "type") in
  if py_eq_str response_type "error" then raise_Otii_Exception response
  else ret PyNone.

Definition get_property (name : PyVal) : Method PyVal :=
  let* self_id := getattr id in
  let data := PyDict {[ "device_id" := self_id; "name" := name ]} in
  let request := REQUEST "arc_get_property" data in
  let* response := send_and_receive request None in
  let* response_type := lift (py_getitem response "type") in
  if py_eq_str response_type "error" then raise_Otii_Exception response
  else
    let* response_data := lift (py_getitem response "data") in
    lift (py_dict_get response_data "value" PyNone).

Definition set_property (name value : PyVal) : Method PyVal :=
  let* self_id := getattr id in
  let data :=
    PyDict {[ "device_id" := self_id; "name" := name; "value" := value ]} in
  let request := REQUEST "arc_set_property" data in
  let* response := send_and_receive request None in
  let* response_type := lift (py_getitem response "type") in
  if py_eq_str response_type "error" then raise_Otii_Exception response
  else ret PyNone.

Definition commit : Method PyVal :=
  let* self_id := getattr id in
  let data := PyDict {[ "device_id" := self_id ]} in
  let request := REQUEST "arc_commit" data in
  let* response := send_and_receive request None in
  let* response_type := lift (py_getitem response "type") in
  if py_eq_str response_type "error" then raise_Otii_Exception response
  else ret PyNone.

Definition firmware_upgrade (filename : option PyVal) : Method PyVal :=
  let filename := default PyNone filename in
  let* self_id := getattr id in
  let data := PyDict {[ "device_id" := self_id; "filename" := filename ]} in
  let request := REQUEST "arc_firmware_upgrade" data in
  let* response := send_and_receive request (Some (PyInt 15)) in
  let* response_type := lift (py_getitem response "type") in
  if py_eq_str response_type "error" then raise_Otii_Exception response
  else ret PyNone.

(** ** Calls from outside *)

(** One constructor per public method, with the arguments of the call.  An
    optional argument left out at the call site is [None] here. *)
Inductive Operation : Type :=
| Calibrate
| Toggle5v (toggle : PyVal)
| Enable5v
| Disable5v
| ToggleBatteryProfiling (toggle : PyVal)
| EnableBatteryProfiling
| DisableBatteryProfiling
| ToggleChannel (channel toggle : PyVal)
| EnableChannel (channel : PyVal)
| DisableChannel (channel : PyVal)
| ToggleExpPort (toggle : PyVal)
| EnableExpPort
| DisableExpPort
| ToggleUart (toggle : PyVal)
| EnableUart
| DisableUart
| Get4wire
| GetAdcResistor
| GetChannelSamplerate (channel : PyVal)
| GetExpVoltage
| GetGpi (pin : PyVal)
| GetMain
| GetMainVoltage
| GetMaxCurrent
| GetRange
| GetRx
| GetSrcCurLimitEnabled
| GetSupplies
| GetSupply
| GetSupplyParallel
| GetSupplySeries
| GetSupplySocTracking
| GetSupplyUsedCapacity
| GetUartBaudrate
| GetValue (channel : PyVal)
| GetVersion
| IsConnected
| Toggle4wire (toggle : PyVal)
| Enable4wire
| Disable4wire
| SetAdcResistor (value : PyVal)
| SetBatteryProfile (value : PyVal)
| SetChannelSamplerate (channel value : PyVal)
| SetExpVoltage (value : PyVal)
| ToggleGpo (pin toggle : PyVal)
| EnableGpo (pin : PyVal)
| DisableGpo (pin : PyVal)
| ToggleMain (toggle : PyVal)
| EnableMain
| DisableMain
| SetMainCurrent (value : PyVal)
| SetMainVoltage (value : PyVal)
| SetMaxCurrent (value : PyVal)
| SetPowerRegulation (mode : PyVal)
| SetRange (range : PyVal)
| ToggleSrcCurLimit (toggle : PyVal)
| EnableToggleSrcCurLimit
| DisableToggleSrcCurLimit
| SetSupply (supply_id : PyVal) (series parallel : option PyVal)
| ToggleSupplySocTracking (toggle : PyVal)
| EnableSupplySocTracking
| DisableSupplySocTracking
| SetSupplyUsedCapacity (value : PyVal)
| ToggleTx (toggle : PyVal)
| EnableTx
| DisableTx
| SetUartBaudrate (value : PyVal)
| WaitForBatteryData (timeout : PyVal)
| WriteTx (value : PyVal)
| GetProperty (name : PyVal)
| SetProperty (name value : PyVal)
| Commit
| FirmwareUpgrade (filename : option PyVal).

Definition invoke (op : Operation) : Method PyVal :=
  match op with
  | Calibrate => calibrate
  | Toggle5v toggle => toggle_5v toggle
  | Enable5v => enable_5v
  | Disable5v => disable_5v
  | ToggleBatteryProfiling toggle => toggle_battery_profiling toggle
  | EnableBatteryProfiling => enable_battery_profiling
  | DisableBatteryProfiling => disable_battery_profiling
  | ToggleChannel channel toggle => toggle_channel channel toggle
  | EnableChannel channel => enable_channel channel
  | DisableChannel channel => disable_channel channel
  | ToggleExpPort toggle => toggle_exp_port toggle
  | EnableExpPort => enable_exp_port
  | DisableExpPort => disable_exp_port
  | ToggleUart toggle => toggle_uart toggle
  | EnableUart => enable_uart
  | DisableUart => disable_uart
  | Get4wire => get_4wire
  | GetAdcResistor => get_adc_resistor
  | GetChannelSamplerate channel => get_channel_samplerate channel
  | GetExpVoltage => get_exp_voltage
  | GetGpi pin => get_gpi pin
  | GetMain => get_main
  | GetMainVoltage => get_main_voltage
  | GetMaxCurrent => get_max_current
  | GetRange => get_range
  | GetRx => get_rx
  | GetSrcCurLimitEnabled => get_src_cur_limit_enabled
  | GetSupplies => get_supplies
  | GetSupply => get_supply
  | GetSupplyParallel => get_supply_parallel
  | GetSupplySeries => get_supply_series
  | GetSupplySocTracking => get_supply_soc_tracking
  | GetSupplyUsedCapacity => get_supply_used_capacity
  | GetUartBaudrate => get_uart_baudrate
  | GetValue channel => get_value channel
  | GetVersion => get_version
  | IsConnected => is_connected
  | Toggle4wire toggle => toggle_4wire toggle
  | Enable4wire => enable_4wire
  | Disable4wire => disable_4wire
  | SetAdcResistor value => set_adc_resistor value
  | SetBatteryProfile value => set_battery_profile value
  | SetChannelSamplerate channel value => set_channel_samplerate channel value
  | SetExpVoltage value => set_exp_voltage value
  | ToggleGpo pin toggle => toggle_gpo pin toggle
  | EnableGpo pin => enable_gpo pin
  | DisableGpo pin => disable_gpo pin
  | ToggleMain toggle => toggle_main toggle
  | EnableMain => enable_main
  | DisableMain => disable_main
  | SetMainCurrent value => set_main_current value
  | SetMainVoltage value => set_main_voltage value
  | SetMaxCurrent value => set_max_current value
  | SetPowerRegulation mode => set_power_regulation mode
  | SetRange range => set_range range
  | ToggleSrcCurLimit toggle => toggle_src_cur_limit toggle
  | EnableToggleSrcCurLimit => enable_toggle_src_cur_limit
  | DisableToggleSrcCurLimit => disable_toggle_src_cur_limit
  | SetSupply supply_id series parallel => set_supply supply_id series parallel
  | ToggleSupplySocTracking toggle => toggle_supply_soc_tracking toggle
  | EnableSupplySocTracking => enable_supply_soc_tracking
  | DisableSupplySocTracking => disable_supply_soc_tracking
  | SetSupplyUsedCapacity value => set_supply_used_capacity value
  | ToggleTx toggle => toggle_tx toggle
  | EnableTx => enable_tx
  | DisableTx => disable_tx
  | SetUartBaudrate value => set_uart_baudrate value
  | WaitForBatteryData timeout => wait_for_battery_data timeout
  | WriteTx value => write_tx value
  | GetProperty name => get_property name
  | SetProperty name value => set_property name value
  | Commit => commit
  | FirmwareUpgrade filename => firmware_upgrade filename
  end.

(** A caller working through a list of calls on one handle, going on after
    a call that raised. *)
Fixpoint session (ops : list Operation) : Method (list (Outcome PyVal)) :=
  match ops with
  | [] => ret []
  | op :: rest =>
      let* o := attempt (invoke op) in
      let* os := session rest in
      ret (o :: os)
  end.

(** ** Runs *)

(** One completed [send_and_receive] call. *)
Record Exchange : Type := {
  ex_conn : OtiiConnection;
  ex_request : PyVal;
  ex_timeout : option PyVal;
  ex_response : PyVal;
}.

(** [Exec p tr o self']: the program [p] can run to the outcome [o], leaving
    the handle as [self'], while the connection answers the calls as
    recorded in [tr].  The connection may answer anything. *)
Inductive Exec {A} : Prog A -> list Exchange -> Outcome A -> Arc -> Prop :=
| Exec_halt o self :
    Exec (Halt o self) [] o self
| Exec_call conn req tmo k resp tr o self' :
    Exec (k resp) tr o self' ->
    Exec (SendAndReceive conn req tmo k)
         ({| ex_conn := conn; ex_request := req; ex_timeout := tmo; ex_response := resp |} :: tr)
         o self'.

Section Connection.

(** A connection as a state machine: the state it is in, and how it
    answers a request. *)
Context {S : Type}.
Variable answer : S -> PyVal -> option PyVal -> PyVal * S.

Fixpoint run {A} (p : Prog A) (st : S) : list Exchange * Outcome A * Arc * S :=
  match p with
  | Halt o self => ([], o, self, st)
  | SendAndReceive conn req tmo k =>
      let '(resp, st1) := answer st req tmo in
      let '(tr, o, self', st') := run (k resp) st1 in
      ({| ex_conn := conn; ex_request := req; ex_timeout := tmo; ex_response := resp |} :: tr,
       o, self', st')
  end.

End Connection.

(** A connection that plays back a fixed list of responses, and answers
    [None] once the list is used up. *)
Definition playback (script : list PyVal) (_ : PyVal) (_ : option PyVal) :
  PyVal * list PyVal :=
  match script with
  | [] => (PyNone, [])
  | resp :: rest => (resp, rest)
  end.

(** ** What the methods have in common *)

(** A response is an error response when its ["type"] entry is the string
    ["error"]; it is a success response when it has a ["type"] entry that
    is anything else. *)
Definition is_error (resp : PyVal) : bool :=
  match py_getitem resp "type" with
  | Returned ty => py_eq_str ty "error"
  | Raised _ => false
  end.

Definition is_success (resp : PyVal) : bool :=
  match py_getitem resp "type" with
  | Returned ty => negb (py_eq_str ty "error")
  | Raised _ => false
  end.

(** What a method hands back from a success response. *)
Inductive Extract : Set :=
| Nothing                       (* no [return] statement *)
| Entry (key : string)          (* [return response["data"][key]] *)
| EntryOrNone (key : string)    (* [return response["data"].get(key, None)] *)
| Payload.                      (* [return response["data"]] *)

Definition extract (e : Extract) (resp : PyVal) : Outcome PyVal :=
  match e with
  | Nothing => Returned PyNone
  | Entry key => outcome_bind (py_getitem resp "data") (fun d => py_getitem d key)
  | EntryOrNone key => outcome_bind (py_getitem resp "data") (fun d => py_dict_get d key PyNone)
  | Payload => py_getitem resp "data"
  end.

(** The part of the response each method returns. *)
Definition returned_field (op : Operation) : Extract :=
  match op with
  | Get4wire | GetAdcResistor | GetChannelSamplerate _ | GetExpVoltage
  | GetGpi _ | GetMain | GetMainVoltage | GetMaxCurrent | GetRx
  | GetSupplyParallel | GetSupplySeries | GetSupplyUsedCapacity
  | GetUartBaudrate | GetValue _ | WaitForBatteryData _ => Entry "value"
  | GetRange => Entry "range"
  | GetSrcCurLimitEnabled | GetSupplySocTracking => Entry "enabled"
  | GetSupplies => Entry "supplies"
  | GetSupply => Entry "supply_id"
  | IsConnected => Entry "connected"
  | GetVersion => Payload
  | GetProperty _ => EntryOrNone "value"
  | _ => Nothing
  end.

(** What every method does with the response. *)
Definition reply (e : Extract) (resp : PyVal) : Outcome PyVal :=
  outcome_bind (py_getitem resp "type") (fun ty =>
    if py_eq_str ty "error" then Raised (raised_exception resp) else extract e resp).

Definition is_Otii_Exception (e : PyExc) : bool :=
  match e with
  | Otii_Exception _ => true
  | _ => false
  end.

(** The timeout argument each method passes to [send_and_receive]:
    [None] where it passes none. *)
Definition passed_timeout (op : Operation) : Outcome (option PyVal) :=
  match op with
  | Calibrate => Returned (Some (PyInt 10))
  | FirmwareUpgrade _ => Returned (Some (PyInt 15))
  | WaitForBatteryData timeout =>
      outcome_bind (py_truediv_int timeout 1000) (fun quotient =>
      outcome_bind (py_int_add 60 quotient) (fun seconds =>
      Returned (Some seconds)))
  | _ => Returned None
  end.

(** The toggle a method sends and the key of the data mapping it is sent
    under: the argument of a [toggle_*] method, the fixed member an
    [enable_*] or [disable_*] method passes on. *)
Definition toggle_entry (op : Operation) : option (string * PyVal) :=
  match op with
  | Toggle5v t | ToggleBatteryProfiling t | ToggleChannel _ t
  | ToggleExpPort t | ToggleUart t | Toggle4wire t | ToggleMain t
  | ToggleSrcCurLimit t | ToggleSupplySocTracking t => Some ("enable", t)
  | ToggleGpo _ t | ToggleTx t => Some ("value", t)
  | Enable5v | EnableBatteryProfiling | EnableChannel _ | EnableExpPort
  | EnableUart | Enable4wire | EnableMain | EnableToggleSrcCurLimit
  | EnableSupplySocTracking => Some ("enable", PyToggle ON)
  | EnableGpo _ | EnableTx => Some ("value", PyToggle ON)
  | Disable5v | DisableBatteryProfiling | DisableChannel _ | DisableExpPort
  | DisableUart | Disable4wire | DisableMain | DisableToggleSrcCurLimit
  | DisableSupplySocTracking => Some ("enable", PyToggle OFF)
  | DisableGpo _ | DisableTx => Some ("value", PyToggle OFF)
  | _ => None
  end.

(** The channel argument of the methods that take one. *)
Definition channel_argument (op : Operation) : option PyVal :=
  match op with
  | ToggleChannel c _ | EnableChannel c | DisableChannel c
  | GetChannelSamplerate c | GetValue c | SetChannelSamplerate c _ => Some c
  | _ => None
  end.

(** The setters whose docstring gives bounds for [value]:
    [set_adc_resistor] (0.001-22 Ohm), [set_exp_voltage] (1.2-5 V) and
    [set_max_current] (0.001-5 A). *)
Definition bounded_setter (op : Operation) : option (string * PyVal) :=
  match op with
  | SetAdcResistor value => Some ("arc_set_adc_resistor", value)
  | SetExpVoltage value => Some ("arc_set_exp_voltage", value)
  | SetMaxCurrent value => Some ("arc_set_max_current", value)
  | _ => None
  end.

(** The enumeration-typed arguments of a call are members of the
    enumeration the docstring names. *)
Definition is_toggle (v : PyVal) : bool :=
  match v with
  | PyToggle _ => true
  | _ => false
  end.

Definition is_channel (v : PyVal) : bool :=
  match v with
  | PyChannel _ => true
  | _ => false
  end.

Definition enum_arguments_ok (op : Operation) : bool :=
  match op with
  | Toggle5v t | ToggleBatteryProfiling t | ToggleExpPort t | ToggleUart t
  | Toggle4wire t | ToggleMain t | ToggleSrcCurLimit t
  | ToggleSupplySocTracking t | ToggleGpo _ t | ToggleTx t => is_toggle t
  | ToggleChannel c t => is_channel c && is_toggle t
  | EnableChannel c | DisableChannel c | GetChannelSamplerate c
  | GetValue c | SetChannelSamplerate c _ => is_channel c
  | _ => true
  end.

Definition is_set_channel_samplerate (op : Operation) : bool :=
  match op with
  | SetChannelSamplerate _ _ => true
  | _ => false
  end.

(** ** Sample data *)

Definition device0 : PyVal :=
  PyDict {[ "type" := PyStr "Arc"; "device_id" := PyStr "Arc4711";
            "name" := PyStr "Bench" ]}.

Definition handle0 : Arc :=
  {| type := PyStr "Arc"; id := PyStr "Arc4711"; name := PyStr "Bench";
     connection := ConnectionRef 1 |}.

Definition error0 : PyVal :=
  PyDict {[ "type" := PyStr "error"; "cmd" := PyStr "arc_calibrate";
            "errorcode" := PyStr "Calibration failed";
            "data" := PyDict {[ "message" := PyStr "Calibration failed" ]} ]}.

(** An error response without an ["errorcode"] entry. *)
Definition error1 : PyVal :=
  PyDict {[ "type" := PyStr "error"; "cmd" := PyStr "arc_calibrate";
            "data" := PyDict {[ "message" := PyStr "Calibration failed" ]} ]}.

(** A sample of what the exception class may do, for the runs on sample
    data: a constructor that reads the ["errorcode"] entry of the response
    it is given, and so ends in a [KeyError] (or [TypeError]) where it
    cannot.  It is an instance of the parameter, not a translation of the
    class. *)
Definition needs_errorcode (response : PyVal) : option PyExc :=
  match py_getitem response "errorcode" with
  | Returned _ => None
  | Raised e => Some e
  end.

Definition ok0 : PyVal :=
  PyDict {[ "type" := PyStr "response"; "data" := PyDict ∅ ]}.

Definition value0 : PyVal :=
  PyDict {[ "type" := PyStr "response";
            "data" := PyDict {[ "value" := PyFloat 3.3 ]} ]}.

(** An exchange of [handle0]: its connection, an envelope, a timeout and the
    response received. *)
Definition exchange0 (cmd : string) (data : gmap string PyVal)
    (tmo : option PyVal) (resp : PyVal) : Exchange :=
  {| ex_conn := ConnectionRef 1;
     ex_request := REQUEST cmd (PyDict data);
     ex_timeout := tmo;
     ex_response := resp |}.

(** A [calibrate] call that the server refuses, with [error0] and with
    [error1]. *)
Definition calibrate_error0 : Exchange :=
  exchange0 "arc_calibrate" {[ "device_id" := PyStr "Arc4711" ]} (Some (PyInt 10)) error0.

Definition calibrate_error1 : Exchange :=
  exchange0 "arc_calibrate" {[ "device_id" := PyStr "Arc4711" ]} (Some (PyInt 10)) error1.

(** A version response whose payload holds a third entry. *)
Definition version_payload0 : gmap string PyVal :=
  {[ "hw_version" := PyStr "1.0.0"; "fw_version" := PyStr "1.1.6";
     "serial" := PyStr "Arc4711" ]}.

Definition version0 : PyVal :=
  PyDict {[ "type" := PyStr "response"; "data" := PyDict version_payload0 ]}.

(** [get_version] answered with [version0], and answered with an empty
    payload. *)
Definition version_exchange0 : Exchange :=
  exchange0 "arc_get_version" {[ "device_id" := PyStr "Arc4711" ]} None version0.

Definition version_exchange_empty : Exchange :=
  exchange0 "arc_get_version" {[ "device_id" := PyStr "Arc4711" ]} None ok0.

(** [set_supply(2)], accepted. *)
Definition set_supply_exchange0 : Exchange :=
  exchange0 "arc_set_supply"
    {[ "device_id" := PyStr "Arc4711"; "supply_id" := PyInt 2;
       "series" := PyInt 1; "parallel" := PyInt 1 ]} None ok0.

(** [get_main_voltage()], answered with [value0]. *)
Definition main_voltage_exchange0 : Exchange :=
  exchange0 "arc_get_main_voltage" {[ "device_id" := PyStr "Arc4711" ]} None value0.

(** [get_property("x")] and [get_gpi(1)], both answered with an empty
    payload. *)
Definition property_exchange0 : Exchange :=
  exchange0 "arc_get_property"
    {[ "device_id" := PyStr "Arc4711"; "name" := PyStr "x" ]} None ok0.

Definition gpi_exchange0 : Exchange :=
  exchange0 "arc_get_gpi"
    {[ "device_id" := PyStr "Arc4711"; "pin" := PyInt 1 ]} None ok0.

(** [toggle_5v(Toggle.ON)] accepted; [set_adc_resistor(1000.0)], far above
    the documented 22 Ohm, refused by the server. *)
Definition toggle_5v_exchange0 : Exchange :=
  exchange0 "arc_enable_5v"
    {[ "device_id" := PyStr "Arc4711"; "enable" := PyBool true ]} None ok0.

Definition adc_resistor_exchange0 : Exchange :=
  exchange0 "arc_set_adc_resistor"
    {[ "device_id" := PyStr "Arc4711"; "value" := PyFloat 1000.0 ]} None error0.

(** The exchanges a connection logs while it runs a program. *)
Definition exchanges {S A} (answer : S -> PyVal -> option PyVal -> PyVal * S)
    (p : Prog A) (st : S) : list Exchange :=
  (run answer p st).1.1.1.

(** The reading of [get_version]'s result that keeps to the two entries the
    docstring names: no key besides ["hw_version"] and ["fw_version"]. *)
Definition version_entries_only (v : PyVal) : Prop :=
  exists d, v = PyDict d /\
    forall key, is_Some (d !! key) -> key = "hw_version" \/ key = "fw_version".

(** ** More about the methods *)

(** The [enable_*] and [disable_*] methods are one call to a [toggle_*]
    method: the call each one makes. *)
Definition delegate (op : Operation) : option Operation :=
  match op with
  | Enable5v => Some (Toggle5v (PyToggle ON))
  | Disable5v => Some (Toggle5v (PyToggle OFF))
  | EnableBatteryProfiling => Some (ToggleBatteryProfiling (PyToggle ON))
  | DisableBatteryProfiling => Some (ToggleBatteryProfiling (PyToggle OFF))
  | EnableChannel channel => Some (ToggleChannel channel (PyToggle ON))
  | DisableChannel channel => Some (ToggleChannel channel (PyToggle OFF))
  | EnableExpPort => Some (ToggleExpPort (PyToggle ON))
  | DisableExpPort => Some (ToggleExpPort (PyToggle OFF))
  | EnableUart => Some (ToggleUart (PyToggle ON))
  | DisableUart => Some (ToggleUart (PyToggle OFF))
  | Enable4wire => Some (Toggle4wire (PyToggle ON))
  | Disable4wire => Some (Toggle4wire (PyToggle OFF))
  | EnableGpo pin => Some (ToggleGpo pin (PyToggle ON))
  | DisableGpo pin => Some (ToggleGpo pin (PyToggle OFF))
  | EnableMain => Some (ToggleMain (PyToggle ON))
  | DisableMain => Some (ToggleMain (PyToggle OFF))
  | EnableToggleSrcCurLimit => Some (ToggleSrcCurLimit (PyToggle ON))
  | DisableToggleSrcCurLimit => Some (ToggleSrcCurLimit (PyToggle OFF))
  | EnableSupplySocTracking => Some (ToggleSupplySocTracking (PyToggle ON))
  | DisableSupplySocTracking => Some (ToggleSupplySocTracking (PyToggle OFF))
  | EnableTx => Some (ToggleTx (PyToggle ON))
  | DisableTx => Some (ToggleTx (PyToggle OFF))
  | _ => None
  end.

(** The method whose body builds the request. *)
Definition target (op : Operation) : Operation := default op (delegate op).

(** The command name in the body of each method (for a method that
    delegates, in the body it delegates to). *)
Definition command (op : Operation) : string :=
  match op with
  | Calibrate => "arc_calibrate"
  | Toggle5v _ => "arc_enable_5v"
  | Enable5v => "arc_enable_5v"
  | Disable5v => "arc_enable_5v"
  | ToggleBatteryProfiling _ => "arc_enable_battery_profiling"
  | EnableBatteryProfiling => "arc_enable_battery_profiling"
  | DisableBatteryProfiling => "arc_enable_battery_profiling"
  | ToggleChannel _ _ => "arc_enable_channel"
  | EnableChannel _ => "arc_enable_channel"
  | DisableChannel _ => "arc_enable_channel"
  | ToggleExpPort _ => "arc_enable_exp_port"
  | EnableExpPort => "arc_enable_exp_port"
  | DisableExpPort => "arc_enable_exp_port"
  | ToggleUart _ => "arc_enable_uart"
  | EnableUart => "arc_enable_uart"
  | DisableUart => "arc_enable_uart"
  | Get4wire => "arc_get_4wire"
  | GetAdcResistor => "arc_get_adc_resistor"
  | GetChannelSamplerate _ => "arc_get_channel_samplerate"
  | GetExpVoltage => "arc_get_exp_voltage"
  | GetGpi _ => "arc_get_gpi"
  | GetMain => "arc_get_main"
  | GetMainVoltage => "arc_get_main_voltage"
  | GetMaxCurrent => "arc_get_max_current"
  | GetRange => "arc_get_range"
  | GetRx => "arc_get_rx"
  | GetSrcCurLimitEnabled => "arc_get_src_cur_limit_enabled"
  | GetSupplies => "arc_get_supplies"
  | GetSupply => "arc_get_supply"
  | GetSupplyParallel => "arc_get_supply_parallel"
  | GetSupplySeries => "arc_get_supply_series"
  | GetSupplySocTracking => "arc_get_supply_soc_tracking"
  | GetSupplyUsedCapacity => "arc_get_supply_used_capacity"
  | GetUartBaudrate => "arc_get_uart_baudrate"
  | GetValue _ => "arc_get_value"
  | GetVersion => "arc_get_version"
  | IsConnected => "arc_is_connected"
  | Toggle4wire _ => "arc_set_4wire"
  | Enable4wire => "arc_set_4wire"
  | Disable4wire => "arc_set_4wire"
  | SetAdcResistor _ => "arc_set_adc_resistor"
  | SetBatteryProfile _ => "arc_set_battery_profile"
  | SetChannelSamplerate _ _ => "arc_set_channel_samplerate"
  | SetExpVoltage _ => "arc_set_exp_voltage"
  | ToggleGpo _ _ => "arc_set_gpo"
  | EnableGpo _ => "arc_set_gpo"
  | DisableGpo _ => "arc_set_gpo"
  | ToggleMain _ => "arc_set_main"
  | EnableMain => "arc_set_main"
  | DisableMain => "arc_set_main"
  | SetMainCurrent _ => "arc_set_main_current"
  | SetMainVoltage _ => "arc_set_main_voltage"
  | SetMaxCurrent _ => "arc_set_max_current"
  | SetPowerRegulation _ => "arc_set_power_regulation"
  | SetRange _ => "arc_set_range"
  | ToggleSrcCurLimit _ => "arc_set_src_cur_limit_enabled"
  | EnableToggleSrcCurLimit => "arc_set_src_cur_limit_enabled"
  | DisableToggleSrcCurLimit => "arc_set_src_cur_limit_enabled"
  | SetSupply _ _ _ => "arc_set_supply"
  | ToggleSupplySocTracking _ => "arc_set_supply_soc_tracking"
  | EnableSupplySocTracking => "arc_set_supply_soc_tracking"
  | DisableSupplySocTracking => "arc_set_supply_soc_tracking"
  | SetSupplyUsedCapacity _ => "arc_set_supply_used_capacity"
  | ToggleTx _ => "arc_set_tx"
  | EnableTx => "arc_set_tx"
  | DisableTx => "arc_set_tx"
  | SetUartBaudrate _ => "arc_set_uart_baudrate"
  | WaitForBatteryData _ => "arc_wait_for_battery_data"
  | WriteTx _ => "arc_write_tx"
  | GetProperty _ => "arc_get_property"
  | SetProperty _ _ => "arc_set_property"
  | Commit => "arc_commit"
  | FirmwareUpgrade _ => "arc_firmware_upgrade"
  end.

(** The name each method is defined under. *)
Definition method_name (op : Operation) : string :=
  match op with
  | Calibrate => "calibrate"
  | Toggle5v _ => "toggle_5v"
  | Enable5v => "enable_5v"
  | Disable5v => "disable_5v"
  | ToggleBatteryProfiling _ => "toggle_battery_profiling"
  | EnableBatteryProfiling => "enable_battery_profiling"
  | DisableBatteryProfiling => "disable_battery_profiling"
  | ToggleChannel _ _ => "toggle_channel"
  | EnableChannel _ => "enable_channel"
  | DisableChannel _ => "disable_channel"
  | ToggleExpPort _ => "toggle_exp_port"
  | EnableExpPort => "enable_exp_port"
  | DisableExpPort => "disable_exp_port"
  | ToggleUart _ => "toggle_uart"
  | EnableUart => "enable_uart"
  | DisableUart => "disable_uart"
  | Get4wire => "get_4wire"
  | GetAdcResistor => "get_adc_resistor"
  | GetChannelSamplerate _ => "get_channel_samplerate"
  | GetExpVoltage => "get_exp_voltage"
  | GetGpi _ => "get_gpi"
  | GetMain => "get_main"
  | GetMainVoltage => "get_main_voltage"
  | GetMaxCurrent => "get_max_current"
  | GetRange => "get_range"
  | GetRx => "get_rx"
  | GetSrcCurLimitEnabled => "get_src_cur_limit_enabled"
  | GetSupplies => "get_supplies"
  | GetSupply => "get_supply"
  | GetSupplyParallel => "get_supply_parallel"
  | GetSupplySeries => "get_supply_series"
  | GetSupplySocTracking => "get_supply_soc_tracking"
  | GetSupplyUsedCapacity => "get_supply_used_capacity"
  | GetUartBaudrate => "get_uart_baudrate"
  | GetValue _ => "get_value"
  | GetVersion => "get_version"
  | IsConnected => "is_connected"
  | Toggle4wire _ => "toggle_4wire"
  | Enable4wire => "enable_4wire"
  | Disable4wire => "disable_4wire"
  | SetAdcResistor _ => "set_adc_resistor"
  | SetBatteryProfile _ => "set_battery_profile"
  | SetChannelSamplerate _ _ => "set_channel_samplerate"
  | SetExpVoltage _ => "set_exp_voltage"
  | ToggleGpo _ _ => "toggle_gpo"
  | EnableGpo _ => "enable_gpo"
  | DisableGpo _ => "disable_gpo"
  | ToggleMain _ => "toggle_main"
  | EnableMain => "enable_main"
  | DisableMain => "disable_main"
  | SetMainCurrent _ => "set_main_current"
  | SetMainVoltage _ => "set_main_voltage"
  | SetMaxCurrent _ => "set_max_current"
  | SetPowerRegulation _ => "set_power_regulation"
  | SetRange _ => "set_range"
  | ToggleSrcCurLimit _ => "toggle_src_cur_limit"
  | EnableToggleSrcCurLimit => "enable_toggle_src_cur_limit"
  | DisableToggleSrcCurLimit => "disable_toggle_src_cur_limit"
  | SetSupply _ _ _ => "set_supply"
  | ToggleSupplySocTracking _ => "toggle_supply_soc_tracking"
  | EnableSupplySocTracking => "enable_supply_soc_tracking"
  | DisableSupplySocTracking => "disable_supply_soc_tracking"
  | SetSupplyUsedCapacity _ => "set_supply_used_capacity"
  | ToggleTx _ => "toggle_tx"
  | EnableTx => "enable_tx"
  | DisableTx => "disable_tx"
  | SetUartBaudrate _ => "set_uart_baudrate"
  | WaitForBatteryData _ => "wait_for_battery_data"
  | WriteTx _ => "write_tx"
  | GetProperty _ => "get_property"
  | SetProperty _ _ => "set_property"
  | Commit => "commit"
  | FirmwareUpgrade _ => "firmware_upgrade"
  end.

(** The arguments a method asks for a [value] attribute, in the order it
    asks them. *)
Definition value_arguments (op : Operation) : list PyVal :=
  match op with
  | Toggle5v toggle => [toggle]
  | Enable5v => [PyToggle ON]
  | Disable5v => [PyToggle OFF]
  | ToggleBatteryProfiling toggle => [toggle]
  | EnableBatteryProfiling => [PyToggle ON]
  | DisableBatteryProfiling => [PyToggle OFF]
  | ToggleChannel channel toggle => [channel; toggle]
  | EnableChannel channel => [channel; PyToggle ON]
  | DisableChannel channel => [channel; PyToggle OFF]
  | ToggleExpPort toggle => [toggle]
  | EnableExpPort => [PyToggle ON]
  | DisableExpPort => [PyToggle OFF]
  | ToggleUart toggle => [toggle]
  | EnableUart => [PyToggle ON]
  | DisableUart => [PyToggle OFF]
  | GetChannelSamplerate channel => [channel]
  | GetValue channel => [channel]
  | Toggle4wire toggle => [toggle]
  | Enable4wire => [PyToggle ON]
  | Disable4wire => [PyToggle OFF]
  | SetChannelSamplerate _ value => [value]
  | ToggleGpo _ toggle => [toggle]
  | EnableGpo _ => [PyToggle ON]
  | DisableGpo _ => [PyToggle OFF]
  | ToggleMain toggle => [toggle]
  | EnableMain => [PyToggle ON]
  | DisableMain => [PyToggle OFF]
  | ToggleSrcCurLimit toggle => [toggle]
  | EnableToggleSrcCurLimit => [PyToggle ON]
  | DisableToggleSrcCurLimit => [PyToggle OFF]
  | ToggleSupplySocTracking toggle => [toggle]
  | EnableSupplySocTracking => [PyToggle ON]
  | DisableSupplySocTracking => [PyToggle OFF]
  | ToggleTx toggle => [toggle]
  | EnableTx => [PyToggle ON]
  | DisableTx => [PyToggle OFF]
  | _ => []
  end.

(** The arguments a method puts into the data mapping as they are, with the
    key each goes under; a default stands in for an argument left out. *)
Definition plain_arguments (op : Operation) : list (string * PyVal) :=
  match op with
  | GetGpi pin => [("pin", pin)]
  | SetAdcResistor value => [("value", value)]
  | SetBatteryProfile value => [("value", value)]
  | SetChannelSamplerate channel _ => [("channel", channel)]
  | SetExpVoltage value => [("value", value)]
  | ToggleGpo pin _ => [("pin", pin)]
  | EnableGpo pin => [("pin", pin)]
  | DisableGpo pin => [("pin", pin)]
  | SetMainCurrent value => [("value", value)]
  | SetMainVoltage value => [("value", value)]
  | SetMaxCurrent value => [("value", value)]
  | SetPowerRegulation mode => [("mode", mode)]
  | SetRange range => [("range", range)]
  | SetSupply supply_id series parallel => [("supply_id", supply_id); ("series", default (PyInt 1) series); ("parallel", default (PyInt 1) parallel)]
  | SetSupplyUsedCapacity value => [("value", value)]
  | SetUartBaudrate value => [("value", value)]
  | WaitForBatteryData timeout => [("timeout", timeout)]
  | WriteTx value => [("value", value)]
  | GetProperty name => [("name", name)]
  | SetProperty name value => [("name", name); ("value", value)]
  | FirmwareUpgrade filename => [("filename", default PyNone filename)]
  | _ => []
  end.

Definition has_value_attr (v : PyVal) : bool :=
  match py_value_attr v with
  | Returned _ => true
  | Raised _ => false
  end.

(** The same arguments with the key of the data mapping their [value] goes
    under. *)
Definition value_entries (op : Operation) : list (string * PyVal) :=
  match op with
  | Toggle5v toggle => [("enable", toggle)]
  | Enable5v => [("enable", PyToggle ON)]
  | Disable5v => [("enable", PyToggle OFF)]
  | ToggleBatteryProfiling toggle => [("enable", toggle)]
  | EnableBatteryProfiling => [("enable", PyToggle ON)]
  | DisableBatteryProfiling => [("enable", PyToggle OFF)]
  | ToggleChannel channel toggle => [("channel", channel); ("enable", toggle)]
  | EnableChannel channel => [("channel", channel); ("enable", PyToggle ON)]
  | DisableChannel channel => [("channel", channel); ("enable", PyToggle OFF)]
  | ToggleExpPort toggle => [("enable", toggle)]
  | EnableExpPort => [("enable", PyToggle ON)]
  | DisableExpPort => [("enable", PyToggle OFF)]
  | ToggleUart toggle => [("enable", toggle)]
  | EnableUart => [("enable", PyToggle ON)]
  | DisableUart => [("enable", PyToggle OFF)]
  | GetChannelSamplerate channel => [("channel", channel)]
  | GetValue channel => [("channel", channel)]
  | Toggle4wire toggle => [("enable", toggle)]
  | Enable4wire => [("enable", PyToggle ON)]
  | Disable4wire => [("enable", PyToggle OFF)]
  | SetChannelSamplerate _ value => [("value", value)]
  | ToggleGpo _ toggle => [("value", toggle)]
  | EnableGpo _ => [("value", PyToggle ON)]
  | DisableGpo _ => [("value", PyToggle OFF)]
  | ToggleMain toggle => [("enable", toggle)]
  | EnableMain => [("enable", PyToggle ON)]
  | DisableMain => [("enable", PyToggle OFF)]
  | ToggleSrcCurLimit toggle => [("enable", toggle)]
  | EnableToggleSrcCurLimit => [("enable", PyToggle ON)]
  | DisableToggleSrcCurLimit => [("enable", PyToggle OFF)]
  | ToggleSupplySocTracking toggle => [("enable", toggle)]
  | EnableSupplySocTracking => [("enable", PyToggle ON)]
  | DisableSupplySocTracking => [("enable", PyToggle OFF)]
  | ToggleTx toggle => [("value", toggle)]
  | EnableTx => [("value", PyToggle ON)]
  | DisableTx => [("value", PyToggle OFF)]
  | _ => []
  end.

(** [v.value] where [v] has the attribute. *)
Definition value_of (v : PyVal) : PyVal :=
  match py_value_attr v with
  | Returned x => x
  | Raised _ => PyNone
  end.

(** The data mapping of the request a call sends: the device identifier,
    the values of the arguments asked for their [value], and the other
    arguments as they are. *)
Definition request_data (op : Operation) (self : Arc) : gmap string PyVal :=
  list_to_map
    (("device_id", id self)
       :: map (fun entry => (entry.1, value_of entry.2)) (value_entries op)
       ++ plain_arguments op).

(** What a call needs of its arguments to get as far as sending: a [value]
    attribute on those it asks for one and, in [wait_for_battery_data], a
    timeout the arithmetic accepts. *)
Definition arguments_accepted (op : Operation) : bool :=
  forallb has_value_attr (value_arguments op)
  && match passed_timeout op with
     | Returned _ => true
     | Raised _ => false
     end.

Definition is_mapping (v : PyVal) : bool :=
  match v with
  | PyDict _ => true
  | _ => false
  end.

(** The values [/] and [+] accept next to an integer: [bool] is a subclass
    of [int]. *)
Definition is_number (v : PyVal) : bool :=
  match v with
  | PyBool _ | PyInt _ | PyFloat _ => true
  | _ => false
  end.

(** Two programs that do the same up to the handle they leave behind. *)
Inductive Similar {A} (self1 self2 : Arc) : Prog A -> Prog A -> Prop :=
| Similar_halt o :
    Similar self1 self2 (Halt o self1) (Halt o self2)
| Similar_call conn req tmo k1 k2 :
    (forall resp, Similar self1 self2 (k1 resp) (k2 resp)) ->
    Similar self1 self2 (SendAndReceive conn req tmo k1) (SendAndReceive conn req tmo k2).

(** The runs of a list of calls made one after the other on the same
    handle, each call running on its own. *)
Inductive Calls (self : Arc) :
  list Operation -> list Exchange -> list (Outcome PyVal) -> Prop :=
| Calls_nil :
    Calls self [] [] []
| Calls_cons op ops tr1 tr2 o os :
    Exec (invoke op self) tr1 o self ->
    Calls self ops tr2 os ->
    Calls self (op :: ops) (tr1 ++ tr2) (o :: os).

(** A device dictionary with more entries than [__init__] reads, and one
    without a ["name"]. *)
Definition device1 : PyVal :=
  PyDict {[ "type" := PyStr "Arc"; "device_id" := PyStr "Arc4711";
            "name" := PyStr "Bench"; "serial" := PyInt 4711 ]}.

Definition device2 : PyVal :=
  PyDict {[ "type" := PyStr "Arc"; "device_id" := PyStr "Arc4711" ]}.

(** The same device under another name. *)
Definition handle1 : Arc :=
  {| type := PyStr "Arc (simulated)"; id := PyStr "Arc4711"; name := PyStr "Desk";
     connection := ConnectionRef 1 |}.

(** [get_value(Channel.MAIN_CURRENT)], answered with [value0]. *)
Definition value_exchange0 : Exchange :=
  exchange0 "arc_get_value"
    {[ "device_id" := PyStr "Arc4711"; "channel" := PyStr "mc" ]} None value0.

(** Responses that are not what the protocol promises: no ["type"], not a
    mapping, no ["data"], a payload that is a list. *)
Definition untyped0 : PyVal := PyDict {[ "data" := PyDict ∅ ]}.

Definition nodata0 : PyVal := PyDict {[ "type" := PyStr "response" ]}.

Definition listdata0 : PyVal :=
  PyDict {[ "type" := PyStr "response"; "data" := PyList [PyInt 1] ]}.

(** ** Properties *)

(** *** The arithmetic of the timeout, on sample values *)

Example truediv_500 : py_truediv_int (PyInt 500) 1000 = Returned (PyFloat 0.5).
Proof. vm_compute. reflexivity. Qed.

Example truediv_1 : py_truediv_int (PyInt 1) 1000 = Returned (PyFloat 0.001).
Proof. vm_compute. reflexivity. Qed.

Example truediv_neg : py_truediv_int (PyInt (-2500)) 1000 = Returned (PyFloat (-2.5)).
Proof. vm_compute. reflexivity. Qed.

Example truediv_float : py_truediv_int (PyFloat 250.0) 1000 = Returned (PyFloat 0.25).
Proof. vm_compute. reflexivity. Qed.

Example truediv_str : py_truediv_int (PyStr "500") 1000 = Raised TypeError.
Proof. reflexivity. Qed.

Example truediv_huge : py_truediv_int (PyInt (10 ^ 400)) 1000 = Raised OverflowError.
Proof. vm_compute. reflexivity. Qed.

Example add_60 : py_int_add 60 (PyFloat 0.5) = Returned (PyFloat 60.5).
Proof. vm_compute. reflexivity. Qed.

Example truediv_bool : py_truediv_int (PyBool true) 1000 = Returned (PyFloat 0.001).
Proof. vm_compute. reflexivity. Qed.

Example truediv_none : py_truediv_int PyNone 1000 = Raised TypeError.
Proof. reflexivity. Qed.

Example truediv_past_double :
  py_truediv_int (PyInt (2 ^ 53 + 1)) 1000 = Returned (PyFloat 9007199254740.992).
Proof. vm_compute. reflexivity. Qed.

(** [wait_for_battery_data(500)] waits for 60.5 seconds. *)
Example wait_for_battery_data_500 :
  run playback (invoke (WaitForBatteryData (PyInt 500)) handle0) [value0] =
  ([ exchange0 "arc_wait_for_battery_data"
       {[ "device_id" := PyStr "Arc4711"; "timeout" := PyInt 500 ]}
       (Some (PyFloat 60.5)) value0 ],
   Returned (PyFloat 3.3), handle0, []).
Proof. vm_compute. reflexivity. Qed.

Example passed_timeout_500 :
  passed_timeout (WaitForBatteryData (PyInt 500)) = Returned (Some (PyFloat 60.5)).
Proof. vm_compute. reflexivity. Qed.

(** *** Exceptions of the runtime are not [Otii_Exception] *)

Lemma py_truediv_int_local v n e :
  py_truediv_int v n = Raised e -> is_Otii_Exception e = false.
Proof.
  destruct v; cbn; try (intros [= <-]; reflexivity).
  - destruct (int_true_divide _ _) eqn:E; cbn; [discriminate|].
    intros [= <-]. revert E. unfold int_true_divide, finite_or_overflow.
    repeat case_match; intros [= <-]; reflexivity.
  - destruct (int_true_divide _ _) eqn:E; cbn; [discriminate|].
    intros [= <-]. revert E. unfold int_true_divide, finite_or_overflow.
    repeat case_match; intros [= <-]; reflexivity.
  - unfold int_to_float, float_true_divide, finite_or_overflow.
    repeat (case_match; cbn); intros [= <-]; reflexivity.
Qed.

Lemma py_int_add_local n v e :
  py_int_add n v = Raised e -> is_Otii_Exception e = false.
Proof.
  destruct v; cbn; try (intros [= <-]; reflexivity); try discriminate.
  unfold int_to_float, finite_or_overflow.
  repeat (case_match; cbn); intros [= <-]; reflexivity.
Qed.

(** Case analysis on the arguments a method looks into before it sends. *)
Ltac case_args :=
  repeat match goal with
         | |- context [py_value_attr ?v] => is_var v; destruct v; cbn
         | |- context [default _ ?v] => is_var v; destruct v; cbn
         | |- context [py_truediv_int ?v ?n] =>
             let E := fresh "E" in
             destruct (py_truediv_int v n) eqn:E; cbn;
             [| apply py_truediv_int_local in E]
         | |- context [py_int_add ?n ?v] =>
             let E := fresh "E" in
             destruct (py_int_add n v) eqn:E; cbn;
             [| apply py_int_add_local in E]
         end.

(** The tail shared by all methods, response by response. *)
Ltac case_response resp :=
  unfold reply, extract; cbn;
  destruct (py_getitem resp "type") as [ty|]; cbn; [|reflexivity];
  destruct (py_eq_str ty "error"); cbn; [reflexivity|];
  try (destruct (py_getitem resp "data") as [d|]; cbn);
  reflexivity.

(** Every call either fails before anything is sent, on an exception of the
    runtime, or sends one request envelope through the handle's connection
    and then answers as [reply] says, with the handle as it was. *)
Lemma invoke_shape op self :
  (exists e, invoke op self = Halt (Raised e) self /\ is_Otii_Exception e = false)
  \/
  (exists cmd d tmo k,
      invoke op self = SendAndReceive (connection self) (REQUEST cmd (PyDict d)) tmo k
      /\ d !! "device_id" = Some (id self)
      /\ forall resp, k resp = Halt (reply (returned_field op) resp) self).
Proof.
  destruct op; cbn; case_args.
  all: try (left; eexists; split; [reflexivity | first [reflexivity | eassumption]]).
  all: right; do 4 eexists; split; [reflexivity|]; split;
    [ first [apply lookup_insert_eq | apply lookup_singleton_eq] | ].
  all: intros resp; case_response resp.
Qed.

(** *** Runs of a single call *)

Ltac inv_exec H := inversion H; subst; clear H.

Lemma Exec_call_inv {A} conn req tmo (k : PyVal -> Prog A) tr o self' :
  Exec (SendAndReceive conn req tmo k) tr o self' ->
  exists resp tr0,
    tr = {| ex_conn := conn; ex_request := req; ex_timeout := tmo; ex_response := resp |} :: tr0
    /\ Exec (k resp) tr0 o self'.
Proof. intros H. inv_exec H. eauto. Qed.

Lemma run_Exec {S A} (answer : S -> PyVal -> option PyVal -> PyVal * S)
    (p : Prog A) st tr o self' st' :
  run answer p st = (tr, o, self', st') -> Exec p tr o self'.
Proof.
  revert st tr. induction p as [o0 self0 | conn req tmo k IH]; intros st tr; cbn.
  - intros [= <- <- <- <-]. constructor.
  - destruct (answer st req tmo) as [resp st1].
    destruct (run answer (k resp) st1) as [[[tr1 o1] self1] st2] eqn:E.
    intros [= <- <- <- <-]. constructor. eapply IH, E.
Qed.

(** Conversely, every run is the run against the connection that plays
    back the run's responses. *)
Lemma Exec_run {A} (p : Prog A) tr o self' :
  Exec p tr o self' ->
  run playback p (map ex_response tr) = (tr, o, self', []).
Proof.
  induction 1 as [o self | conn req tmo k resp tr o self' _ IH]; cbn.
  - reflexivity.
  - rewrite IH. reflexivity.
Qed.

(** Whatever the connection answers, a run exists: the methods always come
    to an end. *)
Lemma Exec_total {S A} (answer : S -> PyVal -> option PyVal -> PyVal * S)
    (p : Prog A) (st : S) :
  exists tr o self', Exec p tr o self'.
Proof.
  destruct (run answer p st) as [[[tr o] self'] st'] eqn:E.
  exists tr, o, self'. eapply run_Exec, E.
Qed.

Lemma py_getitem_local v key e :
  py_getitem v key = Raised e -> is_Otii_Exception e = false.
Proof.
  destruct v; cbn; try (intros [= <-]; reflexivity).
  destruct (d !! key); [discriminate|]. intros [= <-]. reflexivity.
Qed.

Lemma extract_local ex resp e :
  extract ex resp = Raised e -> is_Otii_Exception e = false.
Proof.
  destruct ex; cbn; try discriminate.
  - destruct (py_getitem resp "data") as [d|e'] eqn:E; cbn.
    + apply py_getitem_local.
    + intros [= <-]. eapply py_getitem_local, E.
  - destruct (py_getitem resp "data") as [d|e'] eqn:E; cbn.
    + destruct d; cbn; try discriminate; intros [= <-]; reflexivity.
    + intros [= <-]. eapply py_getitem_local, E.
  - apply py_getitem_local.
Qed.

Lemma reply_error ex resp :
  is_error resp = true -> reply ex resp = Raised (raised_exception resp).
Proof.
  unfold is_error, reply. destruct (py_getitem resp "type"); [|discriminate].
  cbn. intros ->. reflexivity.
Qed.

Lemma reply_success ex resp :
  is_success resp = true -> reply ex resp = extract ex resp.
Proof.
  unfold is_success, reply. destruct (py_getitem resp "type"); [|discriminate].
  cbn. destruct (py_eq_str a "error"); [discriminate|reflexivity].
Qed.

Lemma reply_not_error ex resp e :
  is_error resp = false -> reply ex resp = Raised e -> is_Otii_Exception e = false.
Proof.
  unfold is_error, reply.
  destruct (py_getitem resp "type") as [ty|e'] eqn:E; cbn.
  - intros ->. apply extract_local.
  - intros _ [= <-]. eapply py_getitem_local, E.
Qed.

(** A run of one call: nothing is exchanged and a runtime exception comes
    out, or exactly one envelope goes through the handle's connection and
    the outcome is the [reply] to the response.  The handle is unchanged
    either way. *)
Lemma Exec_invoke op self tr o self' :
  Exec (invoke op self) tr o self' ->
  self' = self /\
  ((tr = [] /\ exists e, o = Raised e /\ is_Otii_Exception e = false)
   \/
   (exists cmd d tmo resp,
       tr = [ {| ex_conn := connection self; ex_request := REQUEST cmd (PyDict d);
                 ex_timeout := tmo; ex_response := resp |} ]
       /\ d !! "device_id" = Some (id self)
       /\ o = reply (returned_field op) resp)).
Proof.
  intros H.
  destruct (invoke_shape op self) as [(e & Heq & He) | (cmd & d & tmo & k & Heq & Hd & Hk)];
    rewrite Heq in H; inv_exec H.
  - split; [reflexivity|]. left. eauto.
  - match goal with H : Exec (k _) _ _ _ |- _ => rewrite Hk in H; inv_exec H end.
    split; [reflexivity|]. right. exists cmd, d, tmo, resp. auto.
Qed.

(** *** The request of a call *)

(** A call whose arguments are accepted sends one request, the envelope
    around [request_data] with the method's command name, with the timeout
    [passed_timeout] lists, and answers as [reply] says; a call whose
    arguments are not accepted ends in an exception before it sends. *)
Lemma invoke_wire op self :
  if arguments_accepted op then
    exists tmo k,
      passed_timeout op = Returned tmo
      /\ invoke op self =
           SendAndReceive (connection self)
             (REQUEST (command op) (PyDict (request_data op self))) tmo k
      /\ forall resp, k resp = Halt (reply (returned_field op) resp) self
  else
    exists e, invoke op self = Halt (Raised e) self.
Proof.
  unfold arguments_accepted.
  destruct op; cbn;
    repeat match goal with
           | |- context [has_value_attr ?v] => is_var v; destruct v; cbn
           | |- context [default _ ?v] => is_var v; destruct v; cbn
           | |- context [py_truediv_int ?v ?n] => destruct (py_truediv_int v n); cbn
           | |- context [py_int_add ?n ?v] => destruct (py_int_add n v); cbn
           end.
  all: try (eexists; reflexivity).
  all: eexists _, _; split; [reflexivity|]; split; [reflexivity|].
  all: intros resp; case_response resp.
Qed.

Lemma invoke_sends op self :
  arguments_accepted op = true ->
  exists tmo k,
    passed_timeout op = Returned tmo
    /\ invoke op self =
         SendAndReceive (connection self)
           (REQUEST (command op) (PyDict (request_data op self))) tmo k
    /\ forall resp, k resp = Halt (reply (returned_field op) resp) self.
Proof. intros H. pose proof (invoke_wire op self) as Hw. rewrite H in Hw. exact Hw. Qed.

Lemma invoke_refuses op self :
  arguments_accepted op = false -> exists e, invoke op self = Halt (Raised e) self.
Proof. intros H. pose proof (invoke_wire op self) as Hw. rewrite H in Hw. exact Hw. Qed.

(** The exchange of a run is the request of the call. *)
Lemma Exec_wire op self tr o self' x :
  Exec (invoke op self) tr o self' -> x ∈ tr ->
  arguments_accepted op = true
  /\ ex_conn x = connection self
  /\ ex_request x = REQUEST (command op) (PyDict (request_data op self))
  /\ passed_timeout op = Returned (ex_timeout x).
Proof.
  intros H Hx. destruct (arguments_accepted op) eqn:Hacc.
  - destruct (invoke_sends _ self Hacc) as (tmo & k & Htmo & Heq & Hk).
    rewrite Heq in H. apply Exec_call_inv in H as (resp & tr0 & -> & H).
    rewrite Hk in H. inv_exec H.
    apply list_elem_of_singleton in Hx as ->. cbn. auto.
  - destruct (invoke_refuses _ self Hacc) as (e & Heq).
    rewrite Heq in H. inv_exec H. apply elem_of_nil in Hx. contradiction.
Qed.

Lemma request_data_device_id op self :
  request_data op self !! "device_id" = Some (id self).
Proof. unfold request_data. cbn. apply lookup_insert_eq. Qed.

(** C1, as the code has it.  For every public operation, when the response
    returned by [send_and_receive] has its ["type"] entry equal to
    ["error"], the operation calls [Otii_Exception] with that response and
    raises what comes of it: the [Otii_Exception] built from the response
    where the constructor returns, the constructor's own exception where
    it does not.  And an [Otii_Exception] comes out of an operation only
    after an error response: it is the one built from that response,
    unless the constructor itself raised one. *)
Theorem error_response_raises op self tr o self' :
  Exec (invoke op self) tr o self' ->
  (forall x, x ∈ tr -> is_error (ex_response x) = true ->
     (constructor_raises (ex_response x) = None ->
      o = Raised (Otii_Exception (ex_response x)))
     /\
     (forall e, constructor_raises (ex_response x) = Some e -> o = Raised e))
  /\
  (forall r, o = Raised (Otii_Exception r) ->
     exists x, x ∈ tr /\ is_error (ex_response x) = true
               /\ (ex_response x = r
                   \/ constructor_raises (ex_response x) = Some (Otii_Exception r))).
Proof.
  intros H. apply Exec_invoke in H as [_ [(-> & e & -> & He) | (cmd & d & tmo & resp & -> & _ & ->)]].
  - split.
    + intros x Hx. apply elem_of_nil in Hx. contradiction.
    + intros r [= ->]. discriminate.
  - split.
    + intros x Hx%list_elem_of_singleton Herr. subst x. cbn in *.
      rewrite (reply_error _ _ Herr). unfold raised_exception.
      split; [intros -> | intros e ->]; reflexivity.
    + intros r Hr. eexists. split; [apply list_elem_of_singleton; reflexivity|]. cbn.
      destruct (is_error resp) eqn:Herr.
      * split; [reflexivity|].
        rewrite (reply_error _ _ Herr) in Hr. unfold raised_exception in Hr.
        destruct (constructor_raises resp) as [e|]; injection Hr as ->; auto.
      * apply (reply_not_error _ _ _ Herr) in Hr. discriminate.
Qed.

(** C6.  Every request an operation sends is an envelope with exactly the
    three entries ["type": "request"], ["cmd": <command name>] and
    ["data": <args>]: the command name is the method's, the data mapping is
    [request_data], made of the call's arguments, and it holds the handle's
    device identifier under ["device_id"].  An operation whose arguments
    are accepted does send this envelope, once, and ends after the
    response; an operation ends without sending only where an argument is
    not accepted. *)
Theorem request_envelope op self :
  (forall tr o self' x,
      Exec (invoke op self) tr o self' -> x ∈ tr ->
      ex_request x =
        PyDict {[ "type" := PyStr "request"; "cmd" := PyStr (command op);
                  "data" := PyDict (request_data op self) ]})
  /\ request_data op self !! "device_id" = Some (id self)
  /\ (arguments_accepted op = true ->
      exists tmo k,
        invoke op self =
          SendAndReceive (connection self)
            (PyDict {[ "type" := PyStr "request"; "cmd" := PyStr (command op);
                       "data" := PyDict (request_data op self) ]}) tmo k
        /\ forall resp, exists o, k resp = Halt o self)
  /\ (arguments_accepted op = false ->
      exists e, invoke op self = Halt (Raised e) self).
Proof.
  split; [|split; [|split]].
  - intros tr o self' x H Hx.
    apply (Exec_wire _ _ _ _ _ _ H Hx).
  - apply request_data_device_id.
  - intros Hacc. destruct (invoke_sends _ self Hacc) as (tmo & k & _ & Heq & Hk).
    exists tmo, k. split; [exact Heq|]. intros resp. rewrite Hk. eauto.
  - apply invoke_refuses.
Qed.

(** C2, as the code has it.  Given a success response, an operation
    returns what [returned_field] lists for it and nothing else of the
    response: a pure command returns [None]; a getter that reads one key
    returns the entry of the data payload under that key; [get_property]
    returns the ["value"] entry, or [None] where there is none; and
    [get_version] returns the data payload itself, with every entry the
    server put there. *)
Theorem success_response_returns op self tr o self' :
  Exec (invoke op self) tr o self' ->
  forall x, x ∈ tr -> is_success (ex_response x) = true ->
    o = extract (returned_field op) (ex_response x).
Proof.
  intros H x Hx Hok.
  apply Exec_invoke in H as [_ [(-> & _) | (cmd & d & tmo & resp & -> & _ & ->)]].
  - apply elem_of_nil in Hx. contradiction.
  - apply list_elem_of_singleton in Hx as ->. cbn in *.
    apply reply_success, Hok.
Qed.

(** The call that produced an exchange. *)
Lemma Exec_invoke_head op self tr o self' x :
  Exec (invoke op self) tr o self' -> x ∈ tr ->
  tr = [x] /\
  exists k, invoke op self = SendAndReceive (ex_conn x) (ex_request x) (ex_timeout x) k.
Proof.
  intros H Hx.
  destruct (invoke_shape op self) as [(e & Heq & He) | (cmd & d & tmo & k & Heq & Hd & Hk)];
    rewrite Heq in H |- *; inv_exec H.
  - apply elem_of_nil in Hx. contradiction.
  - match goal with H : Exec (k _) _ _ _ |- _ => rewrite Hk in H; inv_exec H end.
    apply list_elem_of_singleton in Hx as ->. cbn. eauto.
Qed.

(** Reading an entry of a request that is written out. *)
Ltac read_entry :=
  unfold py_getitem; simplify_map_eq; reflexivity.

Lemma request_data_toggle op key t self :
  toggle_entry op = Some (key, PyToggle t) ->
  request_data op self !! key = Some (PyBool (Toggle_value t)).
Proof.
  destruct op; try discriminate; cbn; intros Hop; simplify_eq.
  all: unfold request_data; cbn; simplify_map_eq; reflexivity.
Qed.

(** C4.  [Toggle.ON] has the value [True] and [Toggle.OFF] the value
    [False]; and every operation that takes a Toggle (or passes one on, as
    the [enable_*] and [disable_*] operations do) sends that boolean in the
    data mapping of its request, under the key [toggle_entry] lists: it
    does send the request (where it also takes a channel, given that the
    channel is accepted), and every exchange of every run carries the
    boolean. *)
Theorem toggle_on_wire :
  Toggle_value ON = true /\ Toggle_value OFF = false /\
  forall op key t self,
    toggle_entry op = Some (key, PyToggle t) ->
    (arguments_accepted op = true ->
     exists tmo k,
       invoke op self =
         SendAndReceive (connection self)
           (REQUEST (command op) (PyDict (request_data op self))) tmo k
       /\ request_data op self !! key = Some (PyBool (Toggle_value t))
       /\ forall resp, exists o, k resp = Halt o self)
    /\
    (forall tr o self' x,
       Exec (invoke op self) tr o self' -> x ∈ tr ->
       exists d, py_getitem (ex_request x) "data" = Returned (PyDict d)
                 /\ d !! key = Some (PyBool (Toggle_value t))).
Proof.
  split; [reflexivity|]. split; [reflexivity|].
  intros op key t self Hop. split.
  - intros Hacc. destruct (invoke_sends _ self Hacc) as (tmo & k & _ & Heq & Hk).
    exists tmo, k. split; [exact Heq|]. split; [apply request_data_toggle, Hop|].
    intros resp. rewrite Hk. eauto.
  - intros tr o self' x H Hx.
    destruct (Exec_wire _ _ _ _ _ _ H Hx) as (_ & _ & -> & _).
    eexists. split; [read_entry | apply request_data_toggle, Hop].
Qed.

(** C5.  The members of [Channel] and their codes: thirteen members, each
    with the code the class gives it, and no member besides them. *)
Theorem channel_codes :
  Channel_value MAIN_CURRENT = "mc" /\
  Channel_value MAIN_VOLTAGE = "mv" /\
  Channel_value MAIN_ENERGY = "me" /\
  Channel_value ADC_CURRENT = "ac" /\
  Channel_value ADC_VOLTAGE = "av" /\
  Channel_value ADC_ENERGY = "ae" /\
  Channel_value SENSE_MINUS_VOLTAGE = "sn" /\
  Channel_value SENSE_PLUS_VOLTAGE = "sp" /\
  Channel_value VBUS = "vb" /\
  Channel_value TEMPERATURE = "tp" /\
  Channel_value UART_LOGS = "rx" /\
  Channel_value GPI_1 = "i1" /\
  Channel_value GPI_2 = "i2" /\
  length Channel_members = 13%nat /\
  forall c : Channel, c ∈ Channel_members.
Proof.
  repeat (split; [reflexivity|]).
  intros c. unfold Channel_members. destruct c; set_solver.
Qed.

(** C8.  [set_adc_resistor], [set_exp_voltage] and [set_max_current] send
    whatever value they are given, unchanged, under the key ["value"]:
    the runs of such a call are exactly those with one exchange, whose
    request carries the value, and whose outcome is decided by the response
    alone.  No run ends before the request is sent. *)
Theorem bounded_setter_forwards op cmd value self :
  bounded_setter op = Some (cmd, value) ->
  forall tr o self',
    Exec (invoke op self) tr o self' <->
    exists resp,
      tr = [ {| ex_conn := connection self;
                ex_request :=
                  REQUEST cmd (PyDict {[ "device_id" := id self; "value" := value ]});
                ex_timeout := None;
                ex_response := resp |} ]
      /\ o = reply Nothing resp /\ self' = self.
Proof.
  intros Hop tr o self'.
  assert (Hshape : exists k,
             invoke op self =
               SendAndReceive (connection self)
                 (REQUEST cmd (PyDict {[ "device_id" := id self; "value" := value ]}))
                 None k
             /\ forall resp, k resp = Halt (reply Nothing resp) self).
  { destruct op; try discriminate Hop; cbn in Hop; simplify_eq.
    all: cbn; eexists; split; [reflexivity|]; intros resp; case_response resp. }
  destruct Hshape as (k & -> & Hk). split.
  - intros H. inv_exec H.
    match goal with H : Exec (k _) _ _ _ |- _ => rewrite Hk in H; inv_exec H end.
    eauto.
  - intros (resp & -> & -> & ->). constructor. rewrite Hk. constructor.
Qed.

(** C10, as the code has it.  With a success response whose data payload
    is a mapping: [get_property] returns [None] when the payload has no
    ["value"] entry; every method that reads one key of the payload
    ([returned_field] lists it as [Entry key]: all value-returning methods
    but [get_property] and [get_version]) raises [KeyError] when that key
    is absent; and [get_version] reads no key of the payload: it returns
    the payload, whatever its entries. *)
Theorem missing_key_behaviour self tr o self' x d :
  x ∈ tr -> is_success (ex_response x) = true ->
  py_getitem (ex_response x) "data" = Returned (PyDict d) ->
  (forall name,
      Exec (invoke (GetProperty name) self) tr o self' ->
      d !! "value" = None -> o = Returned PyNone)
  /\
  (forall op key,
      returned_field op = Entry key ->
      Exec (invoke op self) tr o self' ->
      d !! key = None -> o = Raised (KeyError key))
  /\
  (Exec (invoke GetVersion self) tr o self' -> o = Returned (PyDict d)).
Proof.
  intros Hx Hok Hdata.
  assert (Hout : forall op, Exec (invoke op self) tr o self' ->
                            o = extract (returned_field op) (ex_response x)).
  { intros op H.
    apply Exec_invoke in H as [_ [(-> & _) | (cmd & d' & tmo & resp & -> & _ & ->)]].
    - apply elem_of_nil in Hx. contradiction.
    - apply list_elem_of_singleton in Hx as ->. cbn in *.
      apply reply_success, Hok. }
  repeat split.
  - intros name H Hnone. rewrite (Hout _ H).
    cbn. rewrite Hdata. cbn. rewrite Hnone. reflexivity.
  - intros op key Hop H Hnone. rewrite (Hout _ H), Hop.
    cbn. rewrite Hdata. cbn. rewrite Hnone. reflexivity.
  - intros H. rewrite (Hout _ H). cbn. exact Hdata.
Qed.

(** C3, at the call the docstring describes.  [set_channel_samplerate]
    given a channel and an integer sample rate raises [AttributeError]
    while it builds the data mapping (it asks the rate for a [value]
    attribute), so no request carries the channel's code or the rate. *)
Theorem set_channel_samplerate_raises c rate self :
  invoke (SetChannelSamplerate (PyChannel c) (PyInt rate)) self
  = Halt (Raised AttributeError) self.
Proof. reflexivity. Qed.

(** Where [set_channel_samplerate] does get to send, because the rate it was
    given is an enumeration member, the data mapping carries the channel
    member itself under ["channel"] and the member's value under
    ["value"]. *)
Lemma set_channel_samplerate_sends_member c t self :
  exists k,
    invoke (SetChannelSamplerate (PyChannel c) (PyToggle t)) self =
    SendAndReceive (connection self)
      (REQUEST "arc_set_channel_samplerate"
         (PyDict {[ "device_id" := id self; "channel" := PyChannel c;
                    "value" := PyBool (Toggle_value t) ]}))
      None k.
Proof. cbn. eexists. reflexivity. Qed.

Lemma request_data_channel op c self :
  channel_argument op = Some (PyChannel c) ->
  is_set_channel_samplerate op = false ->
  request_data op self !! "channel" = Some (PyStr (Channel_value c)).
Proof.
  destruct op; try discriminate; cbn; intros Hop _; simplify_eq.
  all: unfold request_data; cbn; simplify_map_eq; reflexivity.
Qed.

(** The other methods with a channel argument send the channel's code: the
    request goes out (given, where the method also takes a toggle, that the
    toggle is accepted) with the code under ["channel"], and every exchange
    of every run carries it. *)
Lemma channel_code_on_wire op c self :
  channel_argument op = Some (PyChannel c) ->
  is_set_channel_samplerate op = false ->
  (arguments_accepted op = true ->
   exists tmo k,
     invoke op self =
       SendAndReceive (connection self)
         (REQUEST (command op) (PyDict (request_data op self))) tmo k
     /\ request_data op self !! "channel" = Some (PyStr (Channel_value c))
     /\ forall resp, exists o, k resp = Halt o self)
  /\
  (forall tr o self' x,
     Exec (invoke op self) tr o self' -> x ∈ tr ->
     exists d, py_getitem (ex_request x) "data" = Returned (PyDict d)
               /\ d !! "channel" = Some (PyStr (Channel_value c))).
Proof.
  intros Hop Hnot. split.
  - intros Hacc. destruct (invoke_sends _ self Hacc) as (tmo & k & _ & Heq & Hk).
    exists tmo, k. split; [exact Heq|].
    split; [apply request_data_channel; assumption|].
    intros resp. rewrite Hk. eauto.
  - intros tr o self' x H Hx.
    destruct (Exec_wire _ _ _ _ _ _ H Hx) as (_ & _ & -> & _).
    eexists. split; [read_entry | apply request_data_channel; assumption].
Qed.

(** C7, at the call the docstring describes.  Whatever the connection,
    [set_channel_samplerate] given a channel and an integer sample rate
    calls [send_and_receive] not once: the connection logs no exchange. *)
Theorem set_channel_samplerate_never_sends {S}
    (answer : S -> PyVal -> option PyVal -> PyVal * S) (st : S) c rate self :
  length (exchanges answer
            (invoke (SetChannelSamplerate (PyChannel c) (PyInt rate)) self) st)
  = 0%nat.
Proof. reflexivity. Qed.

(** Every call makes at most one [send_and_receive] call, through the
    handle's connection, with the timeout [passed_timeout] lists. *)
Lemma at_most_one_call op self tr o self' x :
  Exec (invoke op self) tr o self' -> x ∈ tr ->
  tr = [x] /\ ex_conn x = connection self
  /\ passed_timeout op = Returned (ex_timeout x).
Proof.
  intros H Hx.
  destruct (Exec_invoke_head _ _ _ _ _ _ H Hx) as (-> & k & Hk). clear H Hx.
  split; [reflexivity|].
  destruct op; revert Hk; cbn; case_args; try discriminate.
  all: intros [= <- _ <- _]; split; reflexivity.
Qed.

(** Every method but [set_channel_samplerate], called with members of the
    documented enumerations and, for [wait_for_battery_data], a timeout the
    arithmetic accepts, makes exactly one call, and ends after it whatever
    the response. *)
Lemma other_calls_send_once op tmo self :
  enum_arguments_ok op = true ->
  is_set_channel_samplerate op = false ->
  passed_timeout op = Returned tmo ->
  exists req k,
    invoke op self = SendAndReceive (connection self) req tmo k
    /\ forall resp, exists o, k resp = Halt o self.
Proof.
  intros Hargs Hnot Htmo.
  destruct (invoke_shape op self) as [(e & Heq & He) | (cmd & d & tmo' & k & Heq & Hd & Hk)].
  - exfalso. revert Heq.
    destruct op; try discriminate Hnot; cbn in Hargs, Htmo |- *;
      repeat match goal with
             | H : _ && _ = true |- _ => apply andb_prop in H as [? ?]
             | H : is_toggle ?v = true |- _ => destruct v; try discriminate H; clear H
             | H : is_channel ?v = true |- _ => destruct v; try discriminate H; clear H
             end; cbn; try discriminate.
    all: try (destruct filename; discriminate).
    all: try (destruct series, parallel; discriminate).
    destruct (py_truediv_int timeout 1000); cbn in *; [|discriminate].
    destruct (py_int_add 60 a); cbn in *; discriminate.
  - assert (tmo' = tmo) as ->.
    { assert (Hrun : Exec (invoke op self)
                [ {| ex_conn := connection self; ex_request := REQUEST cmd (PyDict d);
                     ex_timeout := tmo'; ex_response := PyNone |} ]
                (reply (returned_field op) PyNone) self).
      { rewrite Heq. constructor. rewrite Hk. constructor. }
      eapply at_most_one_call in Hrun as (_ & _ & Ht);
        [|apply list_elem_of_singleton; reflexivity].
      cbn in Ht. congruence. }
    eexists _, k. split; [exact Heq|]. intros resp. rewrite Hk. eauto.
Qed.

(** *** Runs of a sequence of calls *)

Lemma Exec_bind {A B} (p : Prog A) (k : A -> Method B) tr o self' :
  Exec (prog_bind p k) tr o self' ->
  (exists e, Exec p tr (Raised e) self' /\ o = Raised e)
  \/
  (exists a self1 tr1 tr2,
      Exec p tr1 (Returned a) self1 /\ Exec (k a self1) tr2 o self' /\ tr = tr1 ++ tr2).
Proof.
  revert tr. induction p as [[a|e] self0 | conn req tmo k' IH]; intros tr H; cbn in H.
  - right. exists a, self0, [], tr. split; [constructor|]. auto.
  - inv_exec H. left. exists e. split; [constructor | reflexivity].
  - apply Exec_call_inv in H as (resp & tr0 & -> & H). apply IH in H.
    destruct H as [(e & H1 & ->) | (a & self1 & tr1 & tr2 & H1 & H2 & ->)].
    + left. exists e. split; [constructor; exact H1 | reflexivity].
    + right. eexists a, self1, (_ :: tr1), tr2.
      split; [constructor; exact H1|]. auto.
Qed.

Lemma Exec_attempt {A} (p : Prog A) tr (oo : Outcome (Outcome A)) self' :
  Exec (prog_attempt p) tr oo self' ->
  exists o, oo = Returned o /\ Exec p tr o self'.
Proof.
  revert tr. induction p as [o self0 | conn req tmo k IH]; intros tr H; cbn in H.
  - inv_exec H. eexists. split; [reflexivity | constructor].
  - apply Exec_call_inv in H as (resp & tr0 & -> & H). apply IH in H.
    destruct H as (o1 & -> & H). eexists. split; [reflexivity | constructor; exact H].
Qed.

(** A whole session leaves the handle as it found it, and all its requests
    go through the handle's connection and carry the handle's identifier. *)
Lemma Exec_session ops self tr os self' :
  Exec (session ops self) tr os self' ->
  self' = self /\
  forall x, x ∈ tr ->
    ex_conn x = connection self /\
    exists d, py_getitem (ex_request x) "data" = Returned (PyDict d)
              /\ d !! "device_id" = Some (id self).
Proof.
  revert tr os self'. induction ops as [|op rest IH]; intros tr os self' H.
  - inv_exec H. split; [reflexivity|]. intros x Hx. apply elem_of_nil in Hx. contradiction.
  - cbn in H. apply Exec_bind in H as [(e & H & _) | (o1 & self1 & tr1 & tr2 & H1 & H2 & ->)].
    + apply Exec_attempt in H as (? & [=] & _).
    + apply Exec_attempt in H1 as (o & _ & H1).
      apply Exec_invoke in H1 as [-> Hcall].
      apply Exec_bind in H2 as [(e & H2 & _) | (os1 & self2 & tr3 & tr4 & H2 & H3 & ->)].
      * apply IH in H2 as [-> Hrest]. split; [reflexivity|].
        intros x [Hx | Hx]%elem_of_app; [|auto].
        destruct Hcall as [(-> & _) | (cmd & d & tmo & resp & -> & Hd & _)].
        -- apply elem_of_nil in Hx. contradiction.
        -- apply list_elem_of_singleton in Hx as ->. cbn.
           split; [reflexivity|]. exists d. split; [read_entry | exact Hd].
      * apply IH in H2 as [-> Hrest]. inv_exec H3. split; [reflexivity|].
        intros x [Hx | Hx]%elem_of_app;
          [|rewrite app_nil_r in Hx; auto].
        destruct Hcall as [(-> & _) | (cmd & d & tmo & resp & -> & Hd & _)].
        -- apply elem_of_nil in Hx. contradiction.
        -- apply list_elem_of_singleton in Hx as ->. cbn.
           split; [reflexivity|]. exists d. split; [read_entry | exact Hd].
Qed.

(** C9.  A handle built by [__init__] holds the ["type"], ["device_id"] and
    ["name"] entries of the device dictionary and the connection it was
    given; no operation changes it, whether it returns or raises: after any
    sequence of calls the handle is what it was, and every request of the
    sequence went through that connection with that device identifier. *)
Theorem handle_is_never_written device_dict conn self :
  __init__ device_dict conn = Returned self ->
  (py_getitem device_dict "type" = Returned (type self)
   /\ py_getitem device_dict "device_id" = Returned (id self)
   /\ py_getitem device_dict "name" = Returned (name self)
   /\ connection self = conn)
  /\
  forall ops tr os self',
    Exec (session ops self) tr os self' ->
    self' = self /\
    forall x, x ∈ tr ->
      ex_conn x = conn /\
      exists d, py_getitem (ex_request x) "data" = Returned (PyDict d)
                /\ d !! "device_id" = Some (id self).
Proof.
  unfold __init__. intros Hinit.
  destruct (py_getitem device_dict "type") as [ty|] eqn:Ety; [|discriminate].
  destruct (py_getitem device_dict "device_id") as [did|] eqn:Eid; [|discriminate].
  destruct (py_getitem device_dict "name") as [nm|] eqn:Enm; [|discriminate].
  cbn in Hinit. injection Hinit as <-. cbn.
  split; [auto|].
  intros ops tr os self' H. apply Exec_session in H as [-> Hreq].
  split; [reflexivity|]. intros x Hx.
  destruct (Hreq x Hx) as (Hconn & d & Hdata & Hd). cbn in *.
  split; [exact Hconn|]. exists d. split; [exact Hdata | exact Hd].
Qed.

(** ** Further properties *)

(** *** The enumerations *)

(** X3.  The codes tell the channels apart, and the two toggle members have
    different values: two members of [Channel] with the same code are the
    same member, and so for [Toggle]. *)
Theorem enum_values_distinct :
  (forall c1 c2, Channel_value c1 = Channel_value c2 -> c1 = c2) /\
  (forall t1 t2, Toggle_value t1 = Toggle_value t2 -> t1 = t2).
Proof.
  split.
  - intros c1 c2. destruct c1, c2; cbn; intros H; first [reflexivity | discriminate H].
  - intros t1 t2. destruct t1, t2; cbn; intros H; first [reflexivity | discriminate H].
Qed.

(** *** Methods that call another method *)

Lemma Exec_bind_raised {A B} (p : Prog A) (k : A -> Method B) tr e self' :
  Exec p tr (Raised e) self' -> Exec (prog_bind p k) tr (Raised e) self'.
Proof.
  intros H. remember (Raised e) as o eqn:Ho.
  induction H as [o self | conn req tmo k' resp tr o self' _ IH]; subst; cbn.
  - constructor.
  - constructor. apply IH. reflexivity.
Qed.

Lemma Exec_bind_returned {A B} (p : Prog A) (k : A -> Method B) tr1 a self1 tr2 o self' :
  Exec p tr1 (Returned a) self1 -> Exec (k a self1) tr2 o self' ->
  Exec (prog_bind p k) (tr1 ++ tr2) o self'.
Proof.
  intros H Hk. remember (Returned a) as oa eqn:Ho.
  induction H as [o1 self | conn req tmo k' resp tr o1 self1 _ IH]; subst; cbn.
  - exact Hk.
  - constructor. apply IH; [reflexivity | exact Hk].
Qed.

Lemma delegate_bind op op' self :
  delegate op = Some op' ->
  invoke op self = prog_bind (invoke op' self) (fun _ => ret PyNone).
Proof. destruct op; try discriminate; intros [= <-]; reflexivity. Qed.

Lemma delegate_returns_nothing op op' :
  delegate op = Some op' -> returned_field op' = Nothing.
Proof. destruct op; try discriminate; intros [= <-]; reflexivity. Qed.

(** A method that returns nothing returns [None]. *)
Lemma returns_None op self tr a self' :
  returned_field op = Nothing ->
  Exec (invoke op self) tr (Returned a) self' -> a = PyNone.
Proof.
  intros Hop H.
  apply Exec_invoke in H as [_ [(_ & e & [=] & _) | (cmd & d & tmo & resp & _ & _ & H)]].
  rewrite Hop in H. unfold reply, extract in H.
  destruct (py_getitem resp "type") as [ty|]; cbn in H; [|discriminate].
  destruct (py_eq_str ty "error"); [discriminate|]. congruence.
Qed.

(** X1.  An [enable_*] or [disable_*] method does what the [toggle_*]
    method it calls does with [Toggle.ON] or [Toggle.OFF], and nothing
    besides: the two have the same runs, with the same request, the same
    outcome for every response, and the same exception passed on. *)
Theorem wrapper_runs_as_toggle op op' self tr o self' :
  delegate op = Some op' ->
  (Exec (invoke op self) tr o self' <-> Exec (invoke op' self) tr o self').
Proof.
  intros Hop. rewrite (delegate_bind _ _ _ Hop).
  apply delegate_returns_nothing in Hop. split.
  - intros H. apply Exec_bind in H as [(e & H & ->) | (a & self1 & tr1 & tr2 & H1 & H2 & ->)].
    + exact H.
    + inv_exec H2. rewrite app_nil_r.
      rewrite <- (returns_None _ _ _ _ _ Hop H1). exact H1.
  - intros H. destruct o as [a|e].
    + rewrite <- (app_nil_r tr). eapply Exec_bind_returned; [exact H|].
      rewrite (returns_None _ _ _ _ _ Hop H). constructor.
    + apply Exec_bind_raised, H.
Qed.

(** *** What goes on the wire *)

(** X2.  The command name identifies the method.  Every request a call
    sends carries the command name of the method that builds it; and two
    calls have the same command name only if the same method builds their
    requests (they are calls of one method, or of a [toggle_*] method and
    the [enable_*] and [disable_*] methods around it). *)
Theorem command_identifies_method :
  (forall op self tr o self' x,
      Exec (invoke op self) tr o self' -> x ∈ tr ->
      py_getitem (ex_request x) "cmd" = Returned (PyStr (command op)))
  /\
  (forall op1 op2,
      command op1 = command op2 <->
      method_name (target op1) = method_name (target op2)).
Proof.
  split.
  - intros op self tr o self' x H Hx.
    destruct (Exec_invoke_head _ _ _ _ _ _ H Hx) as (_ & k & Hk). clear H Hx.
    destruct op; revert Hk; cbn; case_args; try discriminate.
    all: intros [= _ <- _ _]; read_entry.
  - intros op1 op2.
    destruct op1; cbn; destruct op2; cbn; split; intros H;
      first [reflexivity | discriminate H].
Qed.

(** *** Responses the protocol does not promise *)

(** X4.  A response that is a mapping without a ["type"] entry makes every
    method raise [KeyError] for ["type"], and a response that is no mapping
    at all makes it raise [TypeError], whatever else the response holds. *)
Theorem malformed_response_raises op self tr o self' x :
  Exec (invoke op self) tr o self' -> x ∈ tr ->
  (forall d, ex_response x = PyDict d -> d !! "type" = None ->
             o = Raised (KeyError "type"))
  /\
  (is_mapping (ex_response x) = false -> o = Raised TypeError).
Proof.
  intros H Hx.
  apply Exec_invoke in H as [_ [(-> & _) | (cmd & d' & tmo & resp & -> & _ & ->)]].
  - apply elem_of_nil in Hx. contradiction.
  - apply list_elem_of_singleton in Hx as ->. cbn. unfold reply. split.
    + intros d -> Hd. cbn. rewrite Hd. reflexivity.
    + destruct resp; cbn; try reflexivity. discriminate.
Qed.

(** X5.  A method that returns nothing never looks at the payload: any
    success response makes it return [None], also one that has no ["data"]
    entry or whose payload is not a mapping. *)
Theorem commands_ignore_payload op self tr o self' x :
  returned_field op = Nothing ->
  Exec (invoke op self) tr o self' -> x ∈ tr ->
  is_success (ex_response x) = true ->
  o = Returned PyNone.
Proof.
  intros Hop H Hx Hok.
  apply Exec_invoke in H as [_ [(-> & _) | (cmd & d & tmo & resp & -> & _ & ->)]].
  - apply elem_of_nil in Hx. contradiction.
  - apply list_elem_of_singleton in Hx as ->. cbn in Hok.
    rewrite (reply_success _ _ Hok), Hop. reflexivity.
Qed.

(** X6.  With a success response, a method that returns something of the
    payload needs the payload: without a ["data"] entry it raises
    [KeyError] for ["data"].  Where the ["data"] entry is no mapping, a
    method that reads one key raises [TypeError], [get_property] raises
    [AttributeError], and [get_version] returns the entry as it is. *)
Theorem payload_needed op self tr o self' x d :
  returned_field op <> Nothing ->
  Exec (invoke op self) tr o self' -> x ∈ tr ->
  is_success (ex_response x) = true ->
  ex_response x = PyDict d ->
  (d !! "data" = None -> o = Raised (KeyError "data"))
  /\
  (forall payload, d !! "data" = Some payload -> is_mapping payload = false ->
     match returned_field op with
     | Entry _ => o = Raised TypeError
     | EntryOrNone _ => o = Raised AttributeError
     | _ => o = Returned payload
     end).
Proof.
  intros Hop H Hx Hok Hresp.
  apply Exec_invoke in H as [_ [(-> & _) | (cmd & d' & tmo & resp & -> & _ & ->)]].
  - apply elem_of_nil in Hx. contradiction.
  - apply list_elem_of_singleton in Hx as ->. cbn in Hok, Hresp. subst resp.
    rewrite (reply_success _ _ Hok). split.
    + intros Hd. destruct (returned_field op); cbn; rewrite ?Hd; cbn;
        first [reflexivity | contradiction].
    + intros payload Hd Hp.
      destruct (returned_field op); cbn; rewrite ?Hd; cbn;
        first [contradiction | reflexivity | destruct payload; cbn; first [reflexivity | discriminate Hp]].
Qed.

(** *** Arguments *)

Lemma py_truediv_int_1000_errors v e :
  py_truediv_int v 1000 = Raised e -> e = TypeError \/ e = OverflowError.
Proof.
  destruct v; cbn; try (intros [= <-]; auto).
  - destruct (int_true_divide _ _) eqn:E; cbn; [discriminate|].
    intros [= <-]. revert E. unfold int_true_divide, finite_or_overflow.
    repeat case_match; intros [= <-]; auto.
  - destruct (int_true_divide _ _) eqn:E; cbn; [discriminate|].
    intros [= <-]. revert E. unfold int_true_divide, finite_or_overflow.
    repeat case_match; intros [= <-]; auto.
Qed.

Lemma py_int_add_60_errors v e :
  py_int_add 60 v = Raised e -> e = TypeError.
Proof.
  destruct v; cbn; try (intros [= <-]; reflexivity); discriminate.
Qed.

(** Membership in a list that is written out. *)
Ltac pick_member :=
  first [ apply list_elem_of_here
        | apply list_elem_of_further, list_elem_of_here ].

Ltac split_member H :=
  repeat match type of H with
         | _ ∈ _ :: _ => apply elem_of_cons in H as [-> | H]
         | _ ∈ [] => apply elem_of_nil in H; contradiction
         end.

(** X7.  A call fails with [AttributeError] before anything is sent exactly
    when one of the arguments the method asks for a [value] attribute has
    none: a plain [True], or a channel given by its code, instead of a
    member of an enumeration. *)
Theorem value_attribute_needed op self :
  invoke op self = Halt (Raised AttributeError) self <->
  exists v, v ∈ value_arguments op /\ has_value_attr v = false.
Proof.
  destruct op; cbn [invoke value_arguments].
  all: repeat match goal with
              | |- _ <-> (exists v, v ∈ ?x :: _ /\ _) => is_var x; destruct x
              | |- _ <-> (exists v, v ∈ _ :: ?x :: _ /\ _) => is_var x; destruct x
              end.
  all: try (cbn; split;
            [ intros H;
              first [ discriminate H
                    | eexists; split; [apply list_elem_of_here | reflexivity]
                    | eexists; split;
                      [apply list_elem_of_further, list_elem_of_here | reflexivity] ]
            | intros (v & Hv & Hattr); split_member Hv;
              first [discriminate Hattr | reflexivity] ]).
  (* wait_for_battery_data: the arithmetic raises other exceptions *)
  split; [|intros (v & Hv & _); split_member Hv].
  cbn. destruct (py_truediv_int timeout 1000) as [q|e] eqn:E; cbn.
  - destruct (py_int_add 60 q) as [sec|e] eqn:E2; cbn; [discriminate|].
    intros [= ->]. apply py_int_add_60_errors in E2. discriminate E2.
  - intros [= ->]. apply py_truediv_int_1000_errors in E as [E | E]; discriminate E.
Qed.

(** *** Building the handle *)

(** X8.  [Arc(device_dict, connection)] succeeds exactly when the device
    dictionary is a mapping with the entries ["type"], ["device_id"] and
    ["name"], whatever else it holds; the handle then has these three
    entries and the connection as its fields.  Otherwise it raises
    [TypeError] (no mapping) or [KeyError] for the first of the three keys,
    in this order, that is missing. *)
Theorem init_needs_three_entries device_dict conn :
  (forall self,
      __init__ device_dict conn = Returned self <->
      exists d, device_dict = PyDict d
                /\ d !! "type" = Some (type self)
                /\ d !! "device_id" = Some (id self)
                /\ d !! "name" = Some (name self)
                /\ connection self = conn)
  /\
  (is_mapping device_dict = false -> __init__ device_dict conn = Raised TypeError)
  /\
  (forall d, device_dict = PyDict d ->
     (d !! "type" = None -> __init__ device_dict conn = Raised (KeyError "type"))
     /\ (is_Some (d !! "type") -> d !! "device_id" = None ->
         __init__ device_dict conn = Raised (KeyError "device_id"))
     /\ (is_Some (d !! "type") -> is_Some (d !! "device_id") -> d !! "name" = None ->
         __init__ device_dict conn = Raised (KeyError "name"))).
Proof.
  unfold __init__. repeat split.
  - destruct device_dict; cbn; try discriminate.
    destruct (d !! "type") as [ty|] eqn:Hty; cbn; [|discriminate].
    destruct (d !! "device_id") as [did|] eqn:Hid; cbn; [|discriminate].
    destruct (d !! "name") as [nm|] eqn:Hnm; cbn; [|discriminate].
    intros [= <-]. exists d. cbn. auto.
  - intros (d & -> & Hty & Hid & Hnm & <-). cbn.
    rewrite Hty. cbn. rewrite Hid. cbn. rewrite Hnm. cbn.
    destruct self; reflexivity.
  - destruct device_dict; cbn; first [reflexivity | discriminate].
  - intros Hty. subst. cbn. rewrite Hty. reflexivity.
  - intros [ty Hty] Hid. subst. cbn. rewrite Hty. cbn. rewrite Hid. reflexivity.
  - intros [ty Hty] [did Hid] Hnm. subst. cbn.
    rewrite Hty. cbn. rewrite Hid. cbn. rewrite Hnm. reflexivity.
Qed.

(** *** What a method reads of the handle *)

Lemma Similar_Exec {A} self1 self2 (p1 p2 : Prog A) tr o :
  Similar self1 self2 p1 p2 ->
  Exec p1 tr o self1 -> Exec p2 tr o self2.
Proof.
  intros Hsim. revert tr. induction Hsim as [o1 | conn req tmo k1 k2 _ IH]; intros tr H.
  - inv_exec H. constructor.
  - apply Exec_call_inv in H as (resp & tr0 & -> & H). constructor. apply IH, H.
Qed.

Lemma invoke_Similar op ty1 nm1 ty2 nm2 did conn :
  Similar {| type := ty1; id := did; name := nm1; connection := conn |}
          {| type := ty2; id := did; name := nm2; connection := conn |}
          (invoke op {| type := ty1; id := did; name := nm1; connection := conn |})
          (invoke op {| type := ty2; id := did; name := nm2; connection := conn |}).
Proof.
  destruct op; cbn; case_args.
  all: try apply Similar_halt.
  all: apply Similar_call; intros resp; cbn.
  all: destruct (py_getitem resp "type") as [rty|]; cbn; [|apply Similar_halt].
  all: destruct (py_eq_str rty "error"); cbn; [apply Similar_halt|].
  all: try (destruct (py_getitem resp "data") as [d|]; cbn).
  all: apply Similar_halt.
Qed.

(** X9.  The methods read nothing of the handle but its [id] and its
    [connection]: two handles that agree on these two fields, whatever
    their [type] and [name], send the same requests with the same timeouts
    and end with the same outcome on the same responses. *)
Theorem only_id_and_connection_read op self1 self2 tr o :
  id self1 = id self2 -> connection self1 = connection self2 ->
  Exec (invoke op self1) tr o self1 -> Exec (invoke op self2) tr o self2.
Proof.
  destruct self1 as [ty1 did1 nm1 conn1], self2 as [ty2 did2 nm2 conn2]. cbn.
  intros <- <-. apply Similar_Exec, invoke_Similar.
Qed.

(** *** The timeout of [wait_for_battery_data] *)

(** X10.  Given a float, [wait_for_battery_data] never fails before it
    sends: it sends the float unchanged as the ["timeout"] entry and
    passes [60.0 + timeout / 1000.0], in binary64 arithmetic, as the
    timeout of the call.  Infinities and NaN go through like any other
    float. *)
Theorem float_timeout_sent x self tr o self' :
  Exec (invoke (WaitForBatteryData (PyFloat x)) self) tr o self' <->
  exists resp,
    tr = [ {| ex_conn := connection self;
              ex_request :=
                REQUEST "arc_wait_for_battery_data"
                  (PyDict {[ "device_id" := id self; "timeout" := PyFloat x ]});
              ex_timeout := Some (PyFloat (60 + x / 1000)%float);
              ex_response := resp |} ]
    /\ o = reply (Entry "value") resp /\ self' = self.
Proof.
  assert (Hshape : exists k,
             invoke (WaitForBatteryData (PyFloat x)) self =
               SendAndReceive (connection self)
                 (REQUEST "arc_wait_for_battery_data"
                    (PyDict {[ "device_id" := id self; "timeout" := PyFloat x ]}))
                 (Some (PyFloat (60 + x / 1000)%float)) k
             /\ forall resp, k resp = Halt (reply (Entry "value") resp) self).
  { cbn. eexists. split; [reflexivity|]. intros resp. case_response resp. }
  destruct Hshape as (k & -> & Hk). split.
  - intros H. apply Exec_call_inv in H as (resp & tr0 & -> & H).
    rewrite Hk in H. inv_exec H. eauto.
  - intros (resp & -> & -> & ->). constructor. rewrite Hk. constructor.
Qed.

Lemma int_true_divide_1000_errors z e :
  int_true_divide z 1000 = Raised e -> e = OverflowError.
Proof.
  unfold int_true_divide, finite_or_overflow.
  repeat case_match; intros [= <-]; reflexivity.
Qed.

(** X11.  [wait_for_battery_data] raises [TypeError] before it sends
    anything exactly when its timeout is not a number ([None], a string, a
    list, a mapping, an enumeration member); a [bool] counts as a number. *)
Theorem timeout_must_be_a_number t self :
  invoke (WaitForBatteryData t) self = Halt (Raised TypeError) self <->
  is_number t = false.
Proof.
  destruct t; cbn; split; intros H;
    first [reflexivity | discriminate H | idtac].
  - revert H. destruct (int_true_divide (Z.b2z b) 1000) as [q|e] eqn:E; cbn; [discriminate|].
    intros [= ->]. apply int_true_divide_1000_errors in E. discriminate E.
  - revert H. destruct (int_true_divide z 1000) as [q|e] eqn:E; cbn; [discriminate|].
    intros [= ->]. apply int_true_divide_1000_errors in E. discriminate E.
Qed.

(** *** Sequences of calls *)

Lemma Exec_attempt_intro {A} (p : Prog A) tr o self' :
  Exec p tr o self' -> Exec (prog_attempt p) tr (Returned o) self'.
Proof. induction 1; cbn; constructor. assumption. Qed.

Lemma session_Calls ops self tr o self' :
  Exec (session ops self) tr o self' ->
  self' = self /\ exists os, o = Returned os /\ Calls self ops tr os.
Proof.
  revert tr o self'. induction ops as [|op rest IH]; intros tr o self' H.
  - inv_exec H. split; [reflexivity|]. eexists. split; [reflexivity | constructor].
  - cbn in H. apply Exec_bind in H as [(e & H & _) | (o1 & self1 & tr1 & tr2 & H1 & H2 & ->)].
    + apply Exec_attempt in H as (? & [=] & _).
    + apply Exec_attempt in H1 as (o0 & [= <-] & H1).
      assert (self1 = self) as -> by (apply Exec_invoke in H1 as [? _]; assumption).
      apply Exec_bind in H2 as [(e & H2 & _) | (os1 & self2 & tr3 & tr4 & H2 & H3 & ->)].
      * apply IH in H2 as (_ & os & [=] & _).
      * apply IH in H2 as (-> & os & [= <-] & Hrest). inv_exec H3.
        rewrite app_nil_r. split; [reflexivity|].
        eexists. split; [reflexivity|]. constructor; assumption.
Qed.

(** X12.  A sequence of calls on one handle is nothing but its calls, one
    after the other: its runs are exactly the runs made of one run of each
    call, each on the handle as it was at the start, the exchanges in the
    order of the calls.  An exception of one call changes nothing for the
    calls after it. *)
Theorem session_is_its_calls ops self tr o self' :
  Exec (session ops self) tr o self' <->
  self' = self /\ exists os, o = Returned os /\ Calls self ops tr os.
Proof.
  split; [apply session_Calls|].
  intros (-> & os & -> & H).
  induction H as [|op ops tr1 tr2 o os H1 _ IH]; cbn.
  - constructor.
  - eapply Exec_bind_returned; [apply Exec_attempt_intro, H1|].
    rewrite <- (app_nil_r tr2).
    eapply Exec_bind_returned; [exact IH | constructor].
Qed.

(** X13.  No retries and no batching: a sequence of [n] calls makes at
    most [n] exchanges with the connection, and hands back [n] outcomes,
    one for each call. *)
Theorem session_exchanges_bounded ops self tr o self' :
  Exec (session ops self) tr o self' ->
  (length tr <= length ops)%nat /\
  exists os, o = Returned os /\ length os = length ops.
Proof.
  intros H. apply session_Calls in H as (_ & os & -> & H).
  assert (Hlen : (length tr <= length ops)%nat /\ length os = length ops).
  { induction H as [|op ops tr1 tr2 o os H1 _ [IH1 IH2]]; cbn; [split; reflexivity|].
    rewrite length_app.
    apply Exec_invoke in H1 as [_ [(-> & _) | (cmd & d & tmo & resp & -> & _)]]; cbn; lia. }
  destruct Hlen. eauto.
Qed.

(** *** Arguments that are passed on as they are *)

Ltac split_entry H :=
  repeat match type of H with
         | _ ∈ _ :: _ => apply elem_of_cons in H as [[= -> ->] | H]
         | _ ∈ [] => apply elem_of_nil in H; contradiction
         end.

Lemma request_data_plain op self key v :
  (key, v) ∈ plain_arguments op -> request_data op self !! key = Some v.
Proof.
  destruct op; cbn; intros Hin; split_entry Hin.
  all: unfold request_data; cbn; simplify_map_eq; reflexivity.
Qed.

Lemma request_data_size op self :
  size (request_data op self)
  = S (length (value_arguments op) + length (plain_arguments op)).
Proof. destruct op; vm_compute; reflexivity. Qed.

(** X15.  No argument is checked or converted on the way.  A call whose
    arguments asked for their [value] have one (and, in
    [wait_for_battery_data], whose timeout the arithmetic accepts) sends
    its request whatever its other arguments are; every such argument is in
    the data mapping as it was given, under its key (an optional argument
    left out, as its default); and the data mapping has no entries besides
    the device identifier, these arguments, and one entry for each argument
    asked for its [value]. *)
Theorem arguments_forwarded op self :
  (arguments_accepted op = true ->
   exists tmo k,
     invoke op self =
       SendAndReceive (connection self)
         (REQUEST (command op) (PyDict (request_data op self))) tmo k
     /\ forall resp, exists o, k resp = Halt o self)
  /\ (forall key v, (key, v) ∈ plain_arguments op ->
                    request_data op self !! key = Some v)
  /\ size (request_data op self)
     = S (length (value_arguments op) + length (plain_arguments op))
  /\ (forall tr o self' x,
        Exec (invoke op self) tr o self' -> x ∈ tr ->
        py_getitem (ex_request x) "data" = Returned (PyDict (request_data op self))).
Proof.
  split; [|split; [|split]].
  - intros Hacc. destruct (invoke_sends _ self Hacc) as (tmo & k & _ & Heq & Hk).
    exists tmo, k. split; [exact Heq|]. intros resp. rewrite Hk. eauto.
  - intros key v. apply request_data_plain.
  - apply request_data_size.
  - intros tr o self' x H Hx.
    destruct (Exec_wire _ _ _ _ _ _ H Hx) as (_ & _ & -> & _). read_entry.
Qed.

End ExceptionClass.

(** ** Sample runs *)

(** The runs below are runs with the sample constructor [needs_errorcode],
    which accepts [error0] and does not accept [error1]. *)

Ltac sample_run script :=
  apply (run_Exec playback _ script _ _ _ []); vm_compute; reflexivity.

Ltac sole_member := apply list_elem_of_singleton; reflexivity.

Lemma calibrate_error_run :
  Exec (invoke needs_errorcode Calibrate handle0) [calibrate_error0]
       (Raised (Otii_Exception error0)) handle0.
Proof. sample_run [error0]. Qed.

Lemma calibrate_refused_run :
  Exec (invoke needs_errorcode Calibrate handle0) [calibrate_error1]
       (Raised (KeyError "errorcode")) handle0.
Proof. sample_run [error1]. Qed.

Lemma error_response_raises_witness :
  Exec (invoke needs_errorcode Calibrate handle0) [calibrate_error0]
       (Raised (Otii_Exception error0)) handle0
  /\
  (forall x, x ∈ [calibrate_error0] -> is_error (ex_response x) = true ->
     (needs_errorcode (ex_response x) = None ->
      @Raised PyVal (Otii_Exception error0) = Raised (Otii_Exception (ex_response x)))
     /\
     (forall e, needs_errorcode (ex_response x) = Some e ->
                @Raised PyVal (Otii_Exception error0) = Raised e))
  /\
  (forall r, @Raised PyVal (Otii_Exception error0) = Raised (Otii_Exception r) ->
     exists x, x ∈ [calibrate_error0] /\ is_error (ex_response x) = true
               /\ (ex_response x = r
                   \/ needs_errorcode (ex_response x) = Some (Otii_Exception r))).
Proof.
  split; [exact calibrate_error_run|].
  exact (error_response_raises needs_errorcode Calibrate handle0 _ _ _ calibrate_error_run).
Defined.

(** C1, as stated, fails where the exception class does not accept the
    response: with a constructor that reads the ["errorcode"] entry,
    [calibrate] answered by [error1], an error response without that entry,
    ends in the constructor's [KeyError] and not in an exception that
    carries the response. *)
Lemma error_without_errorcode :
  is_error error1 = true /\
  ~ (forall o,
        Exec (invoke needs_errorcode Calibrate handle0) [calibrate_error1] o handle0 ->
        o = Raised (Otii_Exception error1)).
Proof.
  split; [vm_compute; reflexivity|].
  intros H. specialize (H _ calibrate_refused_run). discriminate H.
Qed.

Lemma set_supply_run :
  Exec (invoke needs_errorcode (SetSupply (PyInt 2) None None) handle0)
       [set_supply_exchange0] (Returned PyNone) handle0.
Proof. sample_run [ok0]. Qed.

Lemma request_envelope_witness :
  ex_request set_supply_exchange0 =
    PyDict {[ "type" := PyStr "request";
              "cmd" := PyStr (command (SetSupply (PyInt 2) None None));
              "data" := PyDict (request_data (SetSupply (PyInt 2) None None) handle0) ]}
  /\ exists tmo k,
       invoke needs_errorcode (SetSupply (PyInt 2) None None) handle0 =
         SendAndReceive (connection handle0)
           (PyDict {[ "type" := PyStr "request";
                      "cmd" := PyStr (command (SetSupply (PyInt 2) None None));
                      "data" := PyDict (request_data (SetSupply (PyInt 2) None None) handle0) ]})
           tmo k
       /\ forall resp, exists o, k resp = Halt o handle0.
Proof.
  destruct (request_envelope needs_errorcode (SetSupply (PyInt 2) None None) handle0)
    as (Hrun & _ & Hsend & _).
  split.
  - apply (Hrun _ _ _ _ set_supply_run). sole_member.
  - apply Hsend. reflexivity.
Defined.

Lemma main_voltage_run :
  Exec (invoke needs_errorcode GetMainVoltage handle0) [main_voltage_exchange0]
       (Returned (PyFloat 3.3)) handle0.
Proof. sample_run [value0]. Qed.

Lemma success_response_returns_witness :
  Returned (PyFloat 3.3) = extract (returned_field GetMainVoltage) value0.
Proof.
  apply (success_response_returns needs_errorcode _ _ _ _ _ main_voltage_run
           main_voltage_exchange0).
  - sole_member.
  - vm_compute. reflexivity.
Defined.

Lemma version_run :
  Exec (invoke needs_errorcode GetVersion handle0) [version_exchange0]
       (Returned (PyDict version_payload0)) handle0.
Proof. sample_run [version0]. Qed.

(** C2, as stated, fails at [version0]: the response is a success response,
    and [get_version] returns its ["serial"] entry along with the two
    version entries. *)
Lemma get_version_returns_every_entry :
  is_success version0 = true /\
  ~ (forall v, Exec (invoke needs_errorcode GetVersion handle0) [version_exchange0]
                 (Returned v) handle0 ->
               version_entries_only v).
Proof.
  split; [vm_compute; reflexivity|].
  intros H. destruct (H _ version_run) as (d & Hd & Hkeys).
  injection Hd as <-.
  destruct (Hkeys "serial") as [E | E]; [|discriminate E..].
  eexists. vm_compute. reflexivity.
Qed.

Lemma toggle_5v_run :
  Exec (invoke needs_errorcode (Toggle5v (PyToggle ON)) handle0) [toggle_5v_exchange0]
       (Returned PyNone) handle0.
Proof. sample_run [ok0]. Qed.

Lemma toggle_on_wire_witness :
  (exists tmo k,
     invoke needs_errorcode (Toggle5v (PyToggle ON)) handle0 =
       SendAndReceive (connection handle0)
         (REQUEST (command (Toggle5v (PyToggle ON)))
            (PyDict (request_data (Toggle5v (PyToggle ON)) handle0))) tmo k
     /\ request_data (Toggle5v (PyToggle ON)) handle0 !! "enable"
        = Some (PyBool (Toggle_value ON))
     /\ forall resp, exists o, k resp = Halt o handle0)
  /\
  (exists d, py_getitem (ex_request toggle_5v_exchange0) "data" = Returned (PyDict d)
             /\ d !! "enable" = Some (PyBool (Toggle_value ON))).
Proof.
  destruct (toggle_on_wire needs_errorcode) as (_ & _ & H).
  destruct (H (Toggle5v (PyToggle ON)) "enable" ON handle0 eq_refl) as [Hsend Hrun].
  split.
  - apply Hsend. reflexivity.
  - apply (Hrun _ _ _ _ toggle_5v_run). sole_member.
Defined.

Lemma bounded_setter_forwards_witness :
  Exec (invoke needs_errorcode (SetAdcResistor (PyFloat 1000.0)) handle0)
       [adc_resistor_exchange0] (Raised (Otii_Exception error0)) handle0.
Proof.
  apply (bounded_setter_forwards needs_errorcode (SetAdcResistor (PyFloat 1000.0))
           "arc_set_adc_resistor" (PyFloat 1000.0) handle0 eq_refl).
  exists error0. repeat split.
Defined.

Lemma property_run :
  Exec (invoke needs_errorcode (GetProperty (PyStr "x")) handle0) [property_exchange0]
       (Returned PyNone) handle0.
Proof. sample_run [ok0]. Qed.

Lemma gpi_run :
  Exec (invoke needs_errorcode (GetGpi (PyInt 1)) handle0) [gpi_exchange0]
       (Raised (KeyError "value")) handle0.
Proof. sample_run [ok0]. Qed.

Lemma missing_key_behaviour_witness :
  Returned PyNone = Returned PyNone /\
  @Raised PyVal (KeyError "value") = Raised (KeyError "value").
Proof.
  split.
  - assert (Hx : property_exchange0 ∈ [property_exchange0]) by sole_member.
    destruct (missing_key_behaviour needs_errorcode handle0 [property_exchange0]
                (Returned PyNone) handle0 property_exchange0 ∅ Hx eq_refl eq_refl)
      as (H & _ & _).
    exact (H (PyStr "x") property_run eq_refl).
  - assert (Hx : gpi_exchange0 ∈ [gpi_exchange0]) by sole_member.
    destruct (missing_key_behaviour needs_errorcode handle0 [gpi_exchange0]
                (Raised (KeyError "value")) handle0 gpi_exchange0 ∅ Hx eq_refl eq_refl)
      as (_ & H & _).
    exact (H (GetGpi (PyInt 1)) "value" eq_refl gpi_run eq_refl).
Defined.

Lemma version_empty_run :
  Exec (invoke needs_errorcode GetVersion handle0) [version_exchange_empty]
       (Returned (PyDict ∅)) handle0.
Proof. sample_run [ok0]. Qed.

(** C10, as stated, fails at [ok0]: the payload of this success response
    has neither a ["hw_version"] nor a ["fw_version"] entry, and
    [get_version] does not fail on it. *)
Lemma get_version_needs_no_key :
  is_success ok0 = true /\
  ~ (forall d o,
        py_getitem ok0 "data" = Returned (PyDict d) ->
        d !! "hw_version" = None -> d !! "fw_version" = None ->
        Exec (invoke needs_errorcode GetVersion handle0) [version_exchange_empty] o handle0 ->
        exists e, o = Raised e).
Proof.
  split; [vm_compute; reflexivity|].
  intros H.
  destruct (H ∅ (Returned (PyDict ∅))) as [e He];
    [vm_compute; reflexivity | reflexivity | reflexivity | exact version_empty_run |].
  discriminate He.
Qed.

Lemma session_run :
  Exec (session needs_errorcode [Calibrate; GetMainVoltage] handle0)
       [calibrate_error0; main_voltage_exchange0]
       (Returned [Raised (Otii_Exception error0); Returned (PyFloat 3.3)]) handle0.
Proof. sample_run [error0; value0]. Qed.

Lemma handle_is_never_written_witness :
  __init__ device0 (ConnectionRef 1) = Returned handle0 /\
  handle0 = handle0 /\
  forall x, x ∈ [calibrate_error0; main_voltage_exchange0] ->
    ex_conn x = ConnectionRef 1 /\
    exists d, py_getitem (ex_request x) "data" = Returned (PyDict d)
              /\ d !! "device_id" = Some (id handle0).
Proof.
  assert (Hinit : __init__ device0 (ConnectionRef 1) = Returned handle0)
    by (vm_compute; reflexivity).
  split; [exact Hinit|].
  destruct (handle_is_never_written needs_errorcode device0 (ConnectionRef 1) handle0 Hinit)
    as [_ H].
  exact (H _ _ _ _ session_run).
Defined.

Lemma enum_values_distinct_witness : VBUS = VBUS /\ OFF = OFF.
Proof.
  destruct enum_values_distinct as [Hc Ht].
  split; [exact (Hc VBUS VBUS eq_refl) | exact (Ht OFF OFF eq_refl)].
Defined.

Lemma wrapper_runs_as_toggle_witness :
  Exec (invoke needs_errorcode Enable5v handle0) [toggle_5v_exchange0]
       (Returned PyNone) handle0.
Proof.
  apply (wrapper_runs_as_toggle needs_errorcode Enable5v (Toggle5v (PyToggle ON))
           handle0 _ _ _ eq_refl).
  exact toggle_5v_run.
Defined.

Lemma command_identifies_method_witness :
  py_getitem (ex_request set_supply_exchange0) "cmd" = Returned (PyStr "arc_set_supply")
  /\ method_name (target (DisableGpo (PyInt 2)))
     = method_name (target (ToggleGpo (PyInt 1) (PyToggle ON))).
Proof.
  destruct (command_identifies_method needs_errorcode) as [Hwire Hname]. split.
  - apply (Hwire (SetSupply (PyInt 2) None None) handle0 _ _ _ _ set_supply_run).
    sole_member.
  - apply (Hname (DisableGpo (PyInt 2)) (ToggleGpo (PyInt 1) (PyToggle ON))).
    reflexivity.
Defined.

Lemma untyped_run :
  Exec (invoke needs_errorcode GetMainVoltage handle0)
       [exchange0 "arc_get_main_voltage" {[ "device_id" := PyStr "Arc4711" ]} None untyped0]
       (Raised (KeyError "type")) handle0.
Proof. sample_run [untyped0]. Qed.

Lemma none_run :
  Exec (invoke needs_errorcode GetMainVoltage handle0)
       [exchange0 "arc_get_main_voltage" {[ "device_id" := PyStr "Arc4711" ]} None PyNone]
       (Raised TypeError) handle0.
Proof. sample_run (@nil PyVal). Qed.

Lemma malformed_response_raises_witness :
  @Raised PyVal (KeyError "type") = Raised (KeyError "type")
  /\ @Raised PyVal TypeError = Raised TypeError.
Proof.
  split.
  - eapply (malformed_response_raises needs_errorcode _ _ _ _ _ _ untyped_run).
    + sole_member.
    + reflexivity.
    + reflexivity.
  - eapply (malformed_response_raises needs_errorcode _ _ _ _ _ _ none_run).
    + sole_member.
    + reflexivity.
Defined.

Lemma commit_nodata_run :
  Exec (invoke needs_errorcode Commit handle0)
       [exchange0 "arc_commit" {[ "device_id" := PyStr "Arc4711" ]} None nodata0]
       (Returned PyNone) handle0.
Proof. sample_run [nodata0]. Qed.

Lemma commands_ignore_payload_witness : Returned PyNone = Returned PyNone.
Proof.
  eapply (commands_ignore_payload needs_errorcode Commit _ _ _ _ _ eq_refl commit_nodata_run).
  - sole_member.
  - vm_compute. reflexivity.
Defined.

Lemma main_voltage_nodata_run :
  Exec (invoke needs_errorcode GetMainVoltage handle0)
       [exchange0 "arc_get_main_voltage" {[ "device_id" := PyStr "Arc4711" ]} None nodata0]
       (Raised (KeyError "data")) handle0.
Proof. sample_run [nodata0]. Qed.

Lemma payload_needed_witness : @Raised PyVal (KeyError "data") = Raised (KeyError "data").
Proof.
  eapply (payload_needed needs_errorcode GetMainVoltage _ _ _ _ _ _ _
            main_voltage_nodata_run).
  Unshelve.
  - sole_member.
  - vm_compute. reflexivity.
  - reflexivity.
  - reflexivity.
  - discriminate.
Defined.

Lemma value_attribute_needed_witness :
  invoke needs_errorcode (Toggle5v (PyBool true)) handle0
  = Halt (Raised AttributeError) handle0
  /\ invoke needs_errorcode (GetValue (PyStr "mc")) handle0
     = Halt (Raised AttributeError) handle0.
Proof.
  split.
  - apply (value_attribute_needed needs_errorcode (Toggle5v (PyBool true)) handle0).
    exists (PyBool true). split; [cbn; sole_member | reflexivity].
  - apply (value_attribute_needed needs_errorcode (GetValue (PyStr "mc")) handle0).
    exists (PyStr "mc"). split; [cbn; sole_member | reflexivity].
Defined.

Lemma init_needs_three_entries_witness :
  __init__ device1 (ConnectionRef 1) = Returned handle0
  /\ __init__ device2 (ConnectionRef 1) = Raised (KeyError "name")
  /\ __init__ (PyStr "Arc4711") (ConnectionRef 1) = Raised TypeError.
Proof.
  split; [|split].
  - apply (init_needs_three_entries device1 (ConnectionRef 1)).
    eexists. split; [reflexivity|]. repeat split; vm_compute; reflexivity.
  - eapply (init_needs_three_entries device2 (ConnectionRef 1)).
    + reflexivity.
    + eexists. vm_compute. reflexivity.
    + eexists. vm_compute. reflexivity.
    + vm_compute. reflexivity.
  - apply (init_needs_three_entries (PyStr "Arc4711") (ConnectionRef 1)).
    reflexivity.
Defined.

Lemma only_id_and_connection_read_witness :
  Exec (invoke needs_errorcode (Toggle5v (PyToggle ON)) handle1) [toggle_5v_exchange0]
       (Returned PyNone) handle1.
Proof.
  exact (only_id_and_connection_read needs_errorcode (Toggle5v (PyToggle ON))
           handle0 handle1 _ _ eq_refl eq_refl toggle_5v_run).
Defined.

Lemma timeout_must_be_a_number_witness :
  invoke needs_errorcode (WaitForBatteryData PyNone) handle0
  = Halt (Raised TypeError) handle0.
Proof. apply (timeout_must_be_a_number needs_errorcode PyNone handle0). reflexivity. Defined.

Lemma session_is_its_calls_witness :
  handle0 = handle0 /\
  exists os, Returned [Raised (Otii_Exception error0); Returned (PyFloat 3.3)] = Returned os
             /\ Calls needs_errorcode handle0 [Calibrate; GetMainVoltage]
                  [calibrate_error0; main_voltage_exchange0] os.
Proof. exact (proj1 (session_is_its_calls needs_errorcode _ _ _ _ _) session_run). Defined.

Lemma session_exchanges_bounded_witness :
  (length [calibrate_error0; main_voltage_exchange0] <= length [Calibrate; GetMainVoltage])%nat /\
  exists os, Returned [Raised (Otii_Exception error0); Returned (PyFloat 3.3)] = Returned os
             /\ length os = length [Calibrate; GetMainVoltage].
Proof. exact (session_exchanges_bounded needs_errorcode _ _ _ _ _ session_run). Defined.

Lemma arguments_forwarded_witness :
  exists tmo k,
    invoke needs_errorcode (SetRange (PyStr "medium")) handle0 =
      SendAndReceive (connection handle0)
        (REQUEST (command (SetRange (PyStr "medium")))
           (PyDict (request_data (SetRange (PyStr "medium")) handle0))) tmo k
    /\ forall resp, exists o, k resp = Halt o handle0.
Proof.
  destruct (arguments_forwarded needs_errorcode (SetRange (PyStr "medium")) handle0)
    as (Hsend & _).
  apply Hsend. reflexivity.
Defined.

Lemma get_value_run :
  Exec (invoke needs_errorcode (GetValue (PyChannel MAIN_CURRENT)) handle0)
       [value_exchange0] (Returned (PyFloat 3.3)) handle0.
Proof. sample_run [value0]. Qed.

Lemma channel_code_on_wire_witness :
  (exists tmo k,
     invoke needs_errorcode (GetValue (PyChannel MAIN_CURRENT)) handle0 =
       SendAndReceive (connection handle0)
         (REQUEST (command (GetValue (PyChannel MAIN_CURRENT)))
            (PyDict (request_data (GetValue (PyChannel MAIN_CURRENT)) handle0))) tmo k
     /\ request_data (GetValue (PyChannel MAIN_CURRENT)) handle0 !! "channel"
        = Some (PyStr (Channel_value MAIN_CURRENT))
     /\ forall resp, exists o, k resp = Halt o handle0)
  /\
  (exists d, py_getitem (ex_request value_exchange0) "data" = Returned (PyDict d)
             /\ d !! "channel" = Some (PyStr (Channel_value MAIN_CURRENT))).
Proof.
  destruct (channel_code_on_wire needs_errorcode (GetValue (PyChannel MAIN_CURRENT))
              MAIN_CURRENT handle0 eq_refl eq_refl) as [Hsend Hrun].
  split.
  - apply Hsend. reflexivity.
  - apply (Hrun _ _ _ _ get_value_run). sole_member.
Defined.

Lemma other_calls_send_once_witness :
  exists req k,
    invoke needs_errorcode Calibrate handle0
    = SendAndReceive (connection handle0) req (Some (PyInt 10)) k
    /\ forall resp, exists o, k resp = Halt o handle0.
Proof.
  exact (other_calls_send_once needs_errorcode Calibrate (Some (PyInt 10)) handle0
           eq_refl eq_refl eq_refl).
Defined.
